(** * calibration_BE: the session-authentication core

    A shallow embedding of the cookie/JWT authentication code of the
    Express application:

    - [app.js]              (module [App])
    - [middleware/auth.js]  (module [Middleware])
    - [routes/auth.js]      (module [AuthRoutes])
    - [routes/users.js]     (module [UsersRoutes])
    - [routes/products.js]  (module [ProductsRoutes], the gates only)
    - [models/User.js]      (module [UserModel])
    - the routes on one account of [routes/users.js] (module
      [UsersAccount]), the CORS allow-list of [app.js] (module [Cors])
      and [seed/defaultCompany.js] (module [Seed])

    Handlers are functions from a request and the state of the outside
    world to what Express does next: either the next middleware runs on
    the (possibly extended) request, or a response is sent.  The
    libraries the handlers call ([jsonwebtoken], [bcryptjs], the
    environment, Mongoose's setters and casts, the check [res.cookie]
    makes of a maximal age) are an interface, [Platform]; the theorems
    hold for every implementation of it.

    The fields of a JSON body are JavaScript values of any kind, and
    the calls that throw on a value of the wrong kind ([bcrypt.hash]
    and [bcrypt.compare] on a password that is no string, a query on
    an id that is no ObjectId) throw here too.

    Conventions. A number is an integer: the handlers only ask of a
    number whether it is zero and whether it is a string, so a number
    with a fraction behaves in them like a non-zero integer. The
    documents of the [users] collection conform to [UserSchema]; a
    document on its way into the collection may not, and [save]
    checks it. The configured cookie name is one a cookie may have,
    so that [res.cookie] and [res.clearCookie] take it. *)

From stdpp Require Import gmap strings list fin_maps pretty.

Open Scope Z_scope.

(* ===================================================================== *)
(** ** JavaScript values *)
(* ===================================================================== *)

(** The JSON-shaped values that travel through the handlers: token
    payloads, [req.user], response bodies. *)
#[warnings="-register-all"]
Inductive Json : Type :=
  | JNull
  | JBool (b : bool)
  | JNum (n : Z)
  | JStr (s : string)
  | JArr (items : list Json)
  | JObj (fields : list (string * Json)).

(** A number as [Number(...)] gives it: either a numeric literal of the
    source or the numeric reading of a string of the environment. *)
Inductive JsNum : Type :=
  | NumLit (n : Z)
  | NumOfString (s : string).

(** [v] is a string and not the empty one. *)
Definition nonempty (s : string) : bool := negb (bool_decide (s = "")).

(** JavaScript truthiness ([!v] is its negation). *)
Definition truthy (v : Json) : bool :=
  match v with
  | JNull => false
  | JBool b => b
  | JNum n => negb (n =? 0)
  | JStr s => nonempty s
  | JArr _ => true
  | JObj _ => true
  end.

(** Truthiness of something that may be [undefined]. *)
Definition truthy_opt (v : option Json) : bool :=
  match v with Some x => truthy x | None => false end.

(** Truthiness of a string that may be [undefined]. *)
Definition truthy_str (v : option string) : bool :=
  match v with Some s => nonempty s | None => false end.

(** [a || b] on strings that may be [undefined], with a defined [b]. *)
Definition or_default (a : option string) (b : string) : string :=
  match a with
  | Some s => if nonempty s then s else b
  | None => b
  end.

(** [a || b] on values that may be [undefined], with a defined [b]. *)
Definition or_default_js (a : option Json) (b : Json) : Json :=
  match a with
  | Some v => if truthy v then v else b
  | None => b
  end.

Fixpoint assoc (k : string) (l : list (string * Json)) : option Json :=
  match l with
  | [] => None
  | (k', v) :: l' => if bool_decide (k' = k) then Some v else assoc k l'
  end.

(** Property access [v.k]; [None] is [undefined]. *)
Definition prop (v : Json) (k : string) : option Json :=
  match v with
  | JObj fields => assoc k fields
  | _ => None
  end.

(** [v !== s] for a string [s]. *)
Definition strict_neq_str (v : option Json) (s : string) : bool :=
  match v with
  | Some (JStr t) => negb (bool_decide (t = s))
  | _ => true
  end.

(** The keys of the objects in [v], at every depth. *)
Fixpoint keys (v : Json) : list string :=
  match v with
  | JArr items =>
      (fix go (l : list Json) : list string :=
         match l with
         | [] => []
         | x :: l' => keys x ++ go l'
         end) items
  | JObj fields =>
      (fix go (l : list (string * Json)) : list string :=
         match l with
         | [] => []
         | (k, x) :: l' => k :: keys x ++ go l'
         end) fields
  | _ => []
  end.

(* ===================================================================== *)
(** ** Results of calls that may throw *)
(* ===================================================================== *)

Inductive Result (A : Type) : Type :=
  | Ok (a : A)
  | Throw (err : string).
Arguments Ok {A} a.
Arguments Throw {A} err.

Definition bind {A B} (r : Result A) (k : A -> Result B) : Result B :=
  match r with
  | Ok a => k a
  | Throw e => Throw e
  end.

(** [const x = await r; k]: a throwing [r] leaves the enclosing [try]. *)
Notation "'let!' x := r 'in' k" := (bind r (fun x => k))
  (at level 10, x name, r at level 100, k at level 200).

(** [try { block } catch (err) { handler }] *)
Definition try_catch {A} (block : Result A) (handler : string -> A) : A :=
  match block with
  | Ok a => a
  | Throw err => handler err
  end.

(* ===================================================================== *)
(** ** The libraries and the environment *)
(* ===================================================================== *)

Class Platform : Type := {
  (** [process.env] *)
  env : gmap string string;
  (** [jwt.sign(payload, secret, { expiresIn: '24h' })] at a given time *)
  jwt_sign : Json -> string -> Z -> string;
  (** [jwt.verify(token, secret)] at a given time; [None] when it throws *)
  jwt_verify : string -> string -> Z -> option Json;
  (** [bcrypt.hash(password, salt)] *)
  bcrypt_hash : string -> string -> string;
  (** [bcrypt.compare(password, hash)] *)
  bcrypt_compare : string -> string -> bool;
  (** the [lowercase: true, trim: true] setters of a Mongoose string path *)
  lowercase_trim : string -> string;
  (** the ObjectId Mongoose casts a value to, written in hexadecimal
      as the [_id] of a document is; [None] when the value does not
      cast, which makes a query throw a [CastError] *)
  castObjectId : Json -> option string;
  (** Mongoose's cast to String of a value that is not a string;
      [None] when it throws a [CastError] *)
  castString : Json -> option string;
  (** the test a query makes on a String path when the filter value is
      not a string (a number, a query operator object); [None] when
      the filter does not cast *)
  filterString : Json -> option (string -> bool);
  (** whether [Number(s)] is a number that [res.cookie] takes as
      [maxAge]; it throws for one that is not *)
  maxAge_valid : string -> bool
}.

(* ===================================================================== *)
(** ** Requests, responses, cookies *)
(* ===================================================================== *)

Record CookieOptions : Type := {
  httpOnly : bool;
  secure : bool;
  sameSite : string;
  maxAge : JsNum;
  path : string
}.

(** What a response asks the client to do with a cookie. *)
Inductive CookieOp : Type :=
  | SetCookie (name value : string) (opts : CookieOptions)
  | ClearCookie (name path : string).

Record Response : Type := {
  status : Z;
  body : Json;
  cookieOps : list CookieOp
}.

Record Request : Type := {
  (** [req.cookies]; [None] when no cookie parser ran *)
  cookies : option (gmap string string);
  (** the fields of the JSON body, [req.body] *)
  reqBody : gmap string Json;
  (** [req.user] *)
  user : option Json
}.

Definition set_user (req : Request) (u : Json) : Request :=
  {| cookies := cookies req; reqBody := reqBody req; user := Some u |}.

(** What a middleware or handler does: call [next()] or send. *)
Inductive Outcome : Type :=
  | Next (req : Request)
  | Send (res : Response).

(** [res.status(code).json(b)] on a response with the cookie operations
    [ops] already applied to it. *)
Definition json_with (ops : list CookieOp) (code : Z) (b : Json) : Response :=
  {| status := code; body := b; cookieOps := ops |}.

Definition error_body (msg : string) : Json := JObj [("error", JStr msg)].

(** The cookies a browser holds for the site (all of path [/]), and what
    a response does to them. *)
Definition apply_cookie (jar : gmap string string) (op : CookieOp)
  : gmap string string :=
  match op with
  | SetCookie name value _ => <[name := value]> jar
  | ClearCookie name _ => delete name jar
  end.

Definition apply_cookies (jar : gmap string string) (res : Response)
  : gmap string string :=
  foldl apply_cookie jar (cookieOps res).

(* ===================================================================== *)
(** ** models/User.js *)
(* ===================================================================== *)

Module UserModel.

(** A document of the [users] collection, as [UserSchema] shapes it;
    [__v] is the version key Mongoose adds to the documents it
    inserts. *)
Record User : Type := {
  _id : string;
  email : string;
  username : string;
  passwordHash : string;
  mobile : option string;
  role : string;
  company : string;
  createdAt : Z;
  __v : option Z
}.

(** The object literal given to [new User({...})]; a key that is
    absent or [undefined] is [None]. *)
Record Init : Type := {
  i_email : option Json;
  i_username : option Json;
  i_passwordHash : option Json;
  i_mobile : option Json;
  i_role : option Json;
  i_company : option Json
}.

(** A document built by [new User(init)] and not yet saved: casts,
    setters and defaults are applied, nothing is validated;
    [d_castError] tells that a value did not cast to its path's type,
    which validation reports. *)
Record Doc : Type := {
  d_id : string;
  d_email : option string;
  d_username : option string;
  d_passwordHash : option string;
  d_mobile : option string;
  d_role : string;
  d_company : option string;
  d_createdAt : Z;
  d_castError : bool
}.

(** [enum: ["user", "admin"]] *)
Definition role_enum : list string := ["user"; "admin"].

(** [default: "user"] *)
Definition role_default : string := "user".

(** The collection, and whether the connection to it works. *)
Record Db : Type := {
  users : list User;
  connected : bool
}.

Section Model.
Context `{P : Platform}.

(** The cast of a value to a String path: the string, if there is
    one, and whether the cast failed. *)
Definition cast_path (v : option Json) : option string * bool :=
  match v with
  | None | Some JNull => (None, false)
  | Some (JStr s) => (Some s, false)
  | Some x =>
      match castString x with
      | Some s => (Some s, false)
      | None => (None, true)
      end
  end.

(** The cast of a value to the ObjectId path [company]. *)
Definition cast_id_path (v : option Json) : option string * bool :=
  match v with
  | None | Some JNull => (None, false)
  | Some x =>
      match castObjectId x with
      | Some oid => (Some oid, false)
      | None => (None, true)
      end
  end.

(** [new User(init)] at time [now], with [id] the generated [_id]. *)
Definition new (id : string) (now : Z) (init : Init) : Doc :=
  {| d_id := id;
     d_email := lowercase_trim <$> (cast_path (i_email init)).1;
     d_username := (cast_path (i_username init)).1;
     d_passwordHash := (cast_path (i_passwordHash init)).1;
     d_mobile := (cast_path (i_mobile init)).1;
     d_role := default role_default (cast_path (i_role init)).1;
     d_company := (cast_id_path (i_company init)).1;
     d_createdAt := now;
     d_castError :=
       (cast_path (i_email init)).2 || (cast_path (i_username init)).2
       || (cast_path (i_passwordHash init)).2 || (cast_path (i_mobile init)).2
       || (cast_path (i_role init)).2 || (cast_id_path (i_company init)).2 |}.

(** Validation on save: every value must have cast, the paths with
    [required: true] ([email], [username], [passwordHash], [company])
    must be set and the [role] must be one of the [enum]. *)
Definition validate (d : Doc) : option User :=
  if negb (d_castError d)
     && truthy_str (d_email d) && truthy_str (d_username d)
     && truthy_str (d_passwordHash d) && truthy_str (d_company d)
     && bool_decide (d_role d ∈ role_enum)
  then
    Some {| _id := d_id d;
            email := default "" (d_email d);
            username := default "" (d_username d);
            passwordHash := default "" (d_passwordHash d);
            mobile := d_mobile d;
            role := d_role d;
            company := default "" (d_company d);
            createdAt := d_createdAt d;
            __v := Some 0 |}
  else None.

(** [User.findOne({ email })]: [e] is the JavaScript value given. *)
Definition findOne_email (db : Db) (e : Json) : Result (option User) :=
  if connected db
  then match e with
       | JStr e =>
           Ok (List.find (fun u => bool_decide (email u = lowercase_trim e))
                         (users db))
       | _ =>
           match filterString e with
           | Some test => Ok (List.find (fun u => test (email u)) (users db))
           | None => Throw "CastError"
           end
       end
  else Throw "MongoNetworkError".

(** [User.findById(id)]: [id] is the JavaScript value given, which
    must cast to an ObjectId. *)
Definition findById (db : Db) (id : option Json) : Result (option User) :=
  if connected db
  then match id with
       | None | Some JNull => Ok None
       | Some x =>
           match castObjectId x with
           | Some oid =>
               Ok (List.find (fun u => bool_decide (_id u = oid)) (users db))
           | None => Throw "CastError"
           end
       end
  else Throw "MongoNetworkError".

(** [await doc.save()] of a new document: validation, then the
    insert, which the unique index on [email] may refuse. *)
Definition save (db : Db) (d : Doc) : Result Db :=
  if connected db
  then match validate d with
       | None => Throw "ValidationError"
       | Some u =>
           if bool_decide (email u ∈ email <$> users db)
           then Throw "E11000 duplicate key"
           else Ok {| users := users db ++ [u]; connected := connected db |}
       end
  else Throw "MongoNetworkError".

(** [.select('-passwordHash').lean()]: the plain object of the
    stored fields without the password hash. *)
Definition lean_without_hash (u : User) : Json :=
  JObj ([("_id", JStr (_id u));
         ("email", JStr (email u));
         ("username", JStr (username u))]
        ++ match mobile u with
           | Some m => [("mobile", JStr m)]
           | None => []
           end
        ++ [("role", JStr (role u));
            ("company", JStr (company u));
            ("createdAt", JNum (createdAt u))]
        ++ match __v u with
           | Some v => [("__v", JNum v)]
           | None => []
           end).

End Model.
End UserModel.

(** The world outside a request: the store, the clock, and what the
    random generators give next. *)
Record World : Type := {
  db : UserModel.Db;
  now : Z;
  nextSalt : string;
  nextObjectId : string
}.

Definition with_db (w : World) (d : UserModel.Db) : World :=
  {| db := d; now := now w; nextSalt := nextSalt w;
     nextObjectId := nextObjectId w |}.

Definition Middleware : Type := World -> Request -> Outcome.

(** Express runs the middlewares of a route in order until one sends. *)
Fixpoint chain (ms : list Middleware) (w : World) (req : Request) : Outcome :=
  match ms with
  | [] => Next req
  | m :: ms' =>
      match m w req with
      | Next req' => chain ms' w req'
      | Send res => Send res
      end
  end.

(** An optional string as a JavaScript value in an object literal. *)
Definition opt_field (k : string) (v : option string) : list (string * Json) :=
  match v with
  | Some s => [(k, JStr s)]
  | None => []
  end.

(** [req.cookies[name]]: a [TypeError] when [req.cookies] is undefined. *)
Definition cookie_get (req : Request) (name : string) : Result (option string) :=
  match cookies req with
  | Some c => Ok (c !! name)
  | None => Throw "TypeError"
  end.

(** [req.cookies && req.cookies[name]] *)
Definition cookie_get_guarded (req : Request) (name : string) : option string :=
  match cookies req with
  | Some c => c !! name
  | None => None
  end.

(** The configuration every module reads from the environment in the
    same way. *)
Section Config.
Context `{P : Platform}.

(** [process.env.COOKIE_NAME || 'session'] *)
Definition COOKIE_NAME : string := or_default (env !! "COOKIE_NAME") "session".

(** [process.env.SESSION_SECRET || 'dev_secret'] *)
Definition SESSION_SECRET : string :=
  or_default (env !! "SESSION_SECRET") "dev_secret".

(** [Number(process.env.COOKIE_MAX_AGE || 24 * 60 * 60 * 1000)] *)
Definition COOKIE_MAX_AGE : JsNum :=
  if truthy_str (env !! "COOKIE_MAX_AGE")
  then NumOfString (default "" (env !! "COOKIE_MAX_AGE"))
  else NumLit (24 * 60 * 60 * 1000).
End Config.

(** The library calls on JavaScript values. *)
Section Libraries.
Context `{P : Platform}.

(** [await bcrypt.hash(password, salt)]: bcryptjs rejects a password
    that is not a string. *)
Definition bcrypt_hash_js (password : Json) (salt : string) : Result string :=
  match password with
  | JStr p => Ok (bcrypt_hash p salt)
  | _ => Throw "Illegal arguments"
  end.

(** [await bcrypt.compare(password, hash)]: bcryptjs rejects a password
    that is not a string. *)
Definition bcrypt_compare_js (password : Json) (hash : string) : Result bool :=
  match password with
  | JStr p => Ok (bcrypt_compare p hash)
  | _ => Throw "Illegal arguments"
  end.

(** [res.cookie(name, value, opts)]: the cookie operation, or the
    [TypeError] for a [maxAge] that is not a valid number. *)
Definition res_cookie (name value : string) (opts : CookieOptions)
  : Result CookieOp :=
  match maxAge opts with
  | NumLit _ => Ok (SetCookie name value opts)
  | NumOfString s =>
      if maxAge_valid s then Ok (SetCookie name value opts)
      else Throw "TypeError: option maxAge is invalid"
  end.

End Libraries.

(* ===================================================================== *)
(** ** middleware/auth.js *)
(* ===================================================================== *)

Module Middleware.
Import UserModel.

Section Gates.
Context `{P : Platform}.

(** The [try] block of [requireAuth]. *)
Definition requireAuth_try (w : World) (req : Request) : Result Outcome :=
  let token := cookie_get_guarded req COOKIE_NAME in
  if negb (truthy_str token) then
    Ok (Send (json_with [] 401 (error_body "Not authenticated")))
  else
    match jwt_verify (default "" token) SESSION_SECRET (now w) with
    | None =>
        Ok (Send (json_with [ClearCookie COOKIE_NAME "/"] 401
                    (error_body "Invalid or expired session")))
    | Some payload =>
        if negb (truthy payload) || negb (truthy_opt (prop payload "uid"))
        then
          Ok (Send (json_with [ClearCookie COOKIE_NAME "/"] 401
                      (error_body "Invalid session payload")))
        else
          let! user := findById (db w) (prop payload "uid") in
          match user with
          | None =>
              Ok (Send (json_with [ClearCookie COOKIE_NAME "/"] 401
                          (error_body "Session user not found")))
          | Some u => Ok (Next (set_user req (lean_without_hash u)))
          end
    end.

(** [requireAuth]: verifies the JWT of the cookie and loads the
    user afresh from the store. *)
Definition requireAuth : Middleware := fun w req =>
  try_catch (requireAuth_try w req)
    (fun err => Send (json_with [] 401 (error_body "Authentication error"))).

(** [requireRole(role)] *)
Definition requireRole (role : string) : Middleware := fun w req =>
  if negb (truthy_opt (user req)) then
    Send (json_with [] 401 (error_body "Not authenticated"))
  else if strict_neq_str (prop (default JNull (user req)) "role") role then
    Send (json_with [] 403 (error_body "Forbidden"))
  else Next req.

End Gates.
End Middleware.

(* ===================================================================== *)
(** ** routes/auth.js *)
(* ===================================================================== *)

Module AuthRoutes.
Import UserModel.

Section Routes.
Context `{P : Platform}.

Definition cookieOptions : CookieOptions :=
  let isProd := bool_decide (env !! "NODE_ENV" = Some "production") in
  {| httpOnly := true;
     secure := isProd;
     sameSite := if isProd then "None" else "Lax";
     maxAge := COOKIE_MAX_AGE;
     path := "/" |}.

(** The document [POST /auth/signup] builds from the body and the
    hash of the password:
    [new User({ email, username, passwordHash, mobile })]. *)
Definition signup_doc (w : World) (req : Request) (passwordHash : string) : Doc :=
  let email := reqBody req !! "email" in
  let username := reqBody req !! "username" in
  let mobile := reqBody req !! "mobile" in
  new (nextObjectId w) (now w)
    {| i_email := email; i_username := username;
       i_passwordHash := Some (JStr passwordHash); i_mobile := mobile;
       i_role := None; i_company := None |}.

(** [POST /auth/signup] *)
Definition signup (w : World) (req : Request) : Response * World :=
  try_catch
    (let email := reqBody req !! "email" in
     let username := reqBody req !! "username" in
     let password := reqBody req !! "password" in
     let mobile := reqBody req !! "mobile" in
     if negb (truthy_opt email) || negb (truthy_opt username)
        || negb (truthy_opt password) || negb (truthy_opt mobile)
     then Ok (json_with [] 400 (error_body "Missing fields"), w)
     else
       let! existing := findOne_email (db w) (default JNull email) in
       if bool_decide (is_Some existing)
       then Ok (json_with [] 400 (error_body "Email already in use"), w)
       else
         let salt := nextSalt w in
         let! passwordHash := bcrypt_hash_js (default JNull password) salt in
         let user := signup_doc w req passwordHash in
         let! db' := save (db w) user in
         let userSafe :=
           JObj ([("id", JStr (d_id user))]
                 ++ opt_field "email" (d_email user)
                 ++ opt_field "username" (d_username user)
                 ++ [("role", JStr (d_role user))]
                 ++ opt_field "mobile" (d_mobile user)) in
         Ok (json_with [] 201 (JObj [("user", userSafe)]), with_db w db'))
    (fun err => (json_with [] 500 (error_body "Server error"), w)).

(** [POST /auth/login] *)
Definition login (w : World) (req : Request) : Response :=
  try_catch
    (let email := reqBody req !! "email" in
     let password := reqBody req !! "password" in
     if negb (truthy_opt email) || negb (truthy_opt password)
     then Ok (json_with [] 400 (error_body "Missing fields"))
     else
       let! user := findOne_email (db w) (default JNull email) in
       match user with
       | None => Ok (json_with [] 401 (error_body "Invalid credentials"))
       | Some user =>
           let! valid :=
             bcrypt_compare_js (default JNull password)
               (UserModel.passwordHash user) in
           if negb valid
           then Ok (json_with [] 401 (error_body "Invalid credentials"))
           else
             let token :=
               jwt_sign (JObj [("uid", JStr (UserModel._id user));
                               ("role", JStr (UserModel.role user));
                               ("username", JStr (UserModel.username user))])
                        SESSION_SECRET (now w) in
             let! cookie := res_cookie COOKIE_NAME token cookieOptions in
             let userSafe :=
               JObj [("id", JStr (UserModel._id user)); ("email", JStr (UserModel.email user));
                     ("username", JStr (UserModel.username user));
                     ("role", JStr (UserModel.role user))] in
             Ok (json_with [cookie] 200 (JObj [("user", userSafe)]))
       end)
    (fun err => json_with [] 500 (error_body "Server error")).

(** [POST /auth/logout] *)
Definition logout (w : World) (req : Request) : Response :=
  json_with [ClearCookie COOKIE_NAME "/"] 200 (JObj [("ok", JBool true)]).

(** [GET /auth/me] *)
Definition me (w : World) (req : Request) : Response :=
  try_catch
    (let! token := cookie_get req COOKIE_NAME in
     if negb (truthy_str token)
     then Ok (json_with [] 200 (JObj [("user", JNull)]))
     else
       match jwt_verify (default "" token) SESSION_SECRET (now w) with
       | None => Throw "JsonWebTokenError"
       | Some payload =>
           let! user := findById (db w) (prop payload "uid") in
           match user with
           | None =>
               Ok (json_with [ClearCookie COOKIE_NAME "/"] 200
                     (JObj [("user", JNull)]))
           | Some u =>
               Ok (json_with [] 200 (JObj [("user", lean_without_hash u)]))
           end
       end)
    (fun err =>
       json_with [ClearCookie COOKIE_NAME "/"] 200 (JObj [("user", JNull)])).

End Routes.
End AuthRoutes.

(* ===================================================================== *)
(** ** routes/users.js *)
(* ===================================================================== *)

Module UsersRoutes.
Import UserModel.

Section Routes.
Context `{P : Platform}.

(** The document [POST /users] builds from the body and the hash of
    the password:
    [new User({ email, username, passwordHash, role: role || 'user',
    mobile })]. *)
Definition create_doc (w : World) (req : Request) (passwordHash : string) : Doc :=
  let email := reqBody req !! "email" in
  let username := reqBody req !! "username" in
  let role := reqBody req !! "role" in
  let mobile := reqBody req !! "mobile" in
  new (nextObjectId w) (now w)
    {| i_email := email; i_username := username;
       i_passwordHash := Some (JStr passwordHash);
       i_role := Some (or_default_js role (JStr "user"));
       i_mobile := mobile; i_company := None |}.

(** [POST /users], after its gates. *)
Definition create (w : World) (req : Request) : Response * World :=
  try_catch
    (let email := reqBody req !! "email" in
     let username := reqBody req !! "username" in
     let password := reqBody req !! "password" in
     if negb (truthy_opt email) || negb (truthy_opt username)
        || negb (truthy_opt password)
     then Ok (json_with [] 400 (error_body "Missing fields"), w)
     else
       let! exists_ := findOne_email (db w) (default JNull email) in
       if bool_decide (is_Some exists_)
       then Ok (json_with [] 400 (error_body "Email already exists"), w)
       else
         let salt := nextSalt w in
         let! passwordHash := bcrypt_hash_js (default JNull password) salt in
         let user := create_doc w req passwordHash in
         let! db' := save (db w) user in
         let userSafe :=
           JObj ([("id", JStr (d_id user))]
                 ++ opt_field "email" (d_email user)
                 ++ opt_field "username" (d_username user)
                 ++ [("role", JStr (d_role user))]
                 ++ opt_field "mobile" (d_mobile user)) in
         Ok (json_with [] 201 (JObj [("user", userSafe)]), with_db w db'))
    (fun err => (json_with [] 500 (error_body "Server error"), w)).

(** The gate each route of the router declares: [requireRole('admin')]. *)
Definition gates : list Middleware := [Middleware.requireRole "admin"].

End Routes.
End UsersRoutes.

(* ===================================================================== *)
(** ** routes/products.js: the gates of its admin-only routes *)
(* ===================================================================== *)

Module ProductsRoutes.
Section Routes.
Context `{P : Platform}.

(** [PUT /products/:id] and [DELETE /products/:id]:
    [requireAuth, requireRole("admin")] of middleware/auth.js. *)
Definition admin_gates : list Middleware :=
  [Middleware.requireAuth; Middleware.requireRole "admin"].

End Routes.
End ProductsRoutes.

(* ===================================================================== *)
(** ** app.js *)
(* ===================================================================== *)

Module App.
Section Application.
Context `{P : Platform}.

(** [POST /auth/logout], registered on the application itself
    (app.js:50-53). *)
Definition logout (w : World) (req : Request) : Response :=
  json_with [ClearCookie COOKIE_NAME "/"] 200 (JObj [("ok", JBool true)]).

(** The application's own [requireAuth] (app.js:56-66): the verified
    payload of the token becomes [req.user]. *)
Definition requireAuth : Middleware := fun w req =>
  try_catch
    (let! token := cookie_get req COOKIE_NAME in
     if negb (truthy_str token)
     then Ok (Send (json_with [] 401 (error_body "Not authenticated")))
     else
       match jwt_verify (default "" token) SESSION_SECRET (now w) with
       | None => Throw "JsonWebTokenError"
       | Some payload => Ok (Next (set_user req payload))
       end)
    (fun err =>
       Send (json_with [] 401 (error_body "Invalid or expired session"))).

(** [app.use("/users", requireAuth, userRoutes)] (app.js:78): what a
    request to an admin-only route of the users router passes before
    its handler. *)
Definition users_gates : list Middleware :=
  requireAuth :: UsersRoutes.gates.

(** [app.use("/products", productRoutes)] (app.js:79) adds no gate of
    its own. *)
Definition products_admin_gates : list Middleware :=
  ProductsRoutes.admin_gates.

End Application.
End App.

(** ** The answers of the authentication gate, by kind *)

Section Answers.
Context `{P : Platform}.

(** What the gate sends when it rejects a session as invalid. *)
Definition invalid_session (msg : string) : Outcome :=
  Send (json_with [ClearCookie COOKIE_NAME "/"] 401 (error_body msg)).

(** The bodies with which the gate rejects a session as invalid. *)
Definition invalid_session_bodies : list Json :=
  [error_body "Invalid or expired session";
   error_body "Invalid session payload";
   error_body "Session user not found"].

End Answers.

(** [User.findByIdAndUpdate(id, { role })], the store update by which
    [PUT /users/:id] changes a role. *)
Definition update_role (id role : string) (d : UserModel.Db) : UserModel.Db :=
  {| UserModel.users :=
       (fun u =>
          if bool_decide (UserModel._id u = id)
          then {| UserModel._id := UserModel._id u;
                  UserModel.email := UserModel.email u;
                  UserModel.username := UserModel.username u;
                  UserModel.passwordHash := UserModel.passwordHash u;
                  UserModel.mobile := UserModel.mobile u;
                  UserModel.role := role;
                  UserModel.company := UserModel.company u;
                  UserModel.createdAt := UserModel.createdAt u;
                  UserModel.__v := UserModel.__v u |}
          else u) <$> UserModel.users d;
     UserModel.connected := UserModel.connected d |}.

(* ===================================================================== *)
(** ** A concrete platform, to run the handlers *)
(* ===================================================================== *)

Module Demo.
Import UserModel.

(** ObjectIds: of alice, of root, of their company, the one the next
    insert gets, and one no document has. *)
Definition alice_id : string := "64f1a2b3c4d5e6f708192a01".
Definition root_id : string := "64f1a2b3c4d5e6f708192a00".
Definition company_id : string := "64f1a2b3c4d5e6f708192b00".
Definition next_id : string := "64f1a2b3c4d5e6f708192a02".
Definition absent_id : string := "64f1a2b3c4d5e6f708192aff".

Definition alice : User :=
  {| _id := alice_id; email := "a@x.com"; username := "alice";
     passwordHash := "$2a$10$salt$pw123"; mobile := Some "555";
     role := "user"; company := company_id; createdAt := 0; __v := Some 0 |}.

Definition root : User :=
  {| _id := root_id; email := "root@x.com"; username := "root";
     passwordHash := "$2a$10$salt$toor"; mobile := None;
     role := "admin"; company := company_id; createdAt := 0; __v := Some 0 |}.

(** The claims of the token root got when logging in at time 0. *)
Definition root_claims : Json :=
  JObj [("uid", JStr root_id); ("role", JStr "admin");
        ("username", JStr "root"); ("iat", JNum 0); ("exp", JNum 86400)].

(** Alice after an administrator made her an admin. *)
Definition alice_admin : User :=
  {| _id := alice_id; email := "a@x.com"; username := "alice";
     passwordHash := "$2a$10$salt$pw123"; mobile := Some "555";
     role := "admin"; company := company_id; createdAt := 0; __v := Some 0 |}.

(** The claims of the token alice got when she logged in at time 0. *)
Definition alice_claims : Json :=
  JObj [("uid", JStr alice_id); ("role", JStr "user");
        ("username", JStr "alice"); ("iat", JNum 0); ("exp", JNum 86400)].

Definition is_hex_digit (c : Ascii.ascii) : bool :=
  let n := Ascii.N_of_ascii c in
  ((48 <=? n) && (n <=? 57) || (97 <=? n) && (n <=? 102)
   || (65 <=? n) && (n <=? 70))%N.

Definition is_digit (c : Ascii.ascii) : bool :=
  let n := Ascii.N_of_ascii c in ((48 <=? n) && (n <=? 57))%N.

Fixpoint all_chars (f : Ascii.ascii -> bool) (s : string) : bool :=
  match s with
  | EmptyString => true
  | String c s' => f c && all_chars f s'
  end.

(** A string of 24 hexadecimal digits. *)
Definition is_hex24 (s : string) : bool :=
  (String.length s =? 24)%nat && all_chars is_hex_digit s.

(** The digits [A] to [F] in lower case. *)
Definition lower_hex_digit (c : Ascii.ascii) : Ascii.ascii :=
  let n := Ascii.N_of_ascii c in
  if ((65 <=? n) && (n <=? 70))%N then Ascii.ascii_of_N (n + 32) else c.

Fixpoint lower_hex (s : string) : string :=
  match s with
  | EmptyString => EmptyString
  | String c s' => String (lower_hex_digit c) (lower_hex s')
  end.

(** A string of 24 hexadecimal digits casts to the ObjectId it
    writes; here nothing else casts. *)
Definition to_ObjectId (v : Json) : option string :=
  match v with
  | JStr s => if is_hex24 s then Some (lower_hex s) else None
  | _ => None
  end.

(** Numbers and booleans cast to their text; arrays and objects do not
    cast. *)
Definition to_text (v : Json) : option string :=
  match v with
  | JNum n => Some (pretty n)
  | JBool true => Some "true"
  | JBool false => Some "false"
  | _ => None
  end.

(** A transparent codec and hash: the token of alice is ["tok.u1"],
    that of root ["tok.u0"], valid for 24 hours under the development
    secret; a hash shows its salt and password. The codec also knows
    one token whose claims carry no [uid]. A maximal age is taken when
    it is written in digits. *)
Definition platform : Platform :=
  {| env := ∅;
     jwt_sign := fun payload secret t =>
       match prop payload "uid" with
       | Some (JStr uid) =>
           if bool_decide (uid = alice_id) then "tok.u1"
           else if bool_decide (uid = root_id) then "tok.u0"
           else ""
       | _ => ""
       end;
     jwt_verify := fun token secret t =>
       if bool_decide (secret = "dev_secret") && (t <? 86400)
       then (if bool_decide (token = "tok.u1") then Some alice_claims
             else if bool_decide (token = "tok.u0") then Some root_claims
             else if bool_decide (token = "tok.anonymous")
                  then Some (JObj [("username", JStr "ghost")])
                  else None)
       else None;
     bcrypt_hash := fun password salt => "$2a$10$" +:+ salt +:+ "$" +:+ password;
     bcrypt_compare := fun password hash =>
       bool_decide (hash = "$2a$10$salt$" +:+ password);
     lowercase_trim := fun s => s;
     castObjectId := to_ObjectId;
     castString := to_text;
     filterString := fun v =>
       match to_text v with
       | Some s => Some (fun e => bool_decide (e = s))
       | None => None
       end;
     maxAge_valid := all_chars is_digit |}.

(** The same platform with another environment. *)
Definition with_env (e : gmap string string) : Platform :=
  {| env := e;
     jwt_sign := @jwt_sign platform;
     jwt_verify := @jwt_verify platform;
     bcrypt_hash := @bcrypt_hash platform;
     bcrypt_compare := @bcrypt_compare platform;
     lowercase_trim := @lowercase_trim platform;
     castObjectId := @castObjectId platform;
     castString := @castString platform;
     filterString := @filterString platform;
     maxAge_valid := @maxAge_valid platform |}.

Definition production : Platform := with_env {[ "NODE_ENV" := "production" ]}.

Definition store : Db := {| users := [root; alice]; connected := true |}.

Definition world : World :=
  {| db := store; now := 100; nextSalt := "salt"; nextObjectId := next_id |}.

(** The same world after an administrator made alice an admin. *)
Definition world_promoted : World :=
  with_db world (update_role alice_id "admin" store).

(** The same world after alice's account was deleted. *)
Definition world_deleted : World :=
  with_db world {| users := [root]; connected := true |}.

(** The same world while the store cannot be reached. *)
Definition world_down : World :=
  with_db world {| users := [root; alice]; connected := false |}.

(** A request that carries the session cookie and no body. *)
Definition with_cookie (token : string) : Request :=
  {| cookies := Some {[ "session" := token ]}; reqBody := ∅; user := None |}.

(** A request with a body and no cookie. *)
Definition with_body (b : gmap string Json) : Request :=
  {| cookies := Some ∅; reqBody := b; user := None |}.

Definition signup_body : gmap string Json :=
  {[ "email" := JStr "b@x.com"; "username" := JStr "bob";
     "password" := JStr "pw456"; "mobile" := JStr "556" ]}.

(** Requests as the gate leaves them: alice attached as the store has
    her, before and after her promotion. *)
Definition as_alice : Request :=
  set_user (with_cookie "tok.u1") (lean_without_hash alice).

Definition as_admin : Request :=
  set_user (with_cookie "tok.u1") (lean_without_hash alice_admin).


Definition login_wrong_password : Request :=
  with_body {[ "email" := JStr "a@x.com"; "password" := JStr "guess" ]}.

Definition login_alice : Request :=
  with_body {[ "email" := JStr "a@x.com"; "password" := JStr "pw123" ]}.



(** The signup body with a role field added by the client. *)
Definition signup_body_admin : gmap string Json :=
  <[ "role" := JStr "admin" ]> signup_body.

End Demo.

(* ===================================================================== *)
(** ** routes/users.js: the routes on one account *)
(* ===================================================================== *)

Module UsersAccount.
Import UserModel.

(** The update object [PUT /users/:id] assembles: a key is set only
    when the body gives a truthy value for it, and then to that value;
    the password goes in as its hash. *)
Record UpdateObject : Type := {
  uo_email : option Json;
  uo_username : option Json;
  uo_mobile : option Json;
  uo_role : option Json;
  uo_passwordHash : option string
}.

(** The update once its values are cast to the types of their paths. *)
Record Update : Type := {
  up_email : option string;
  up_username : option string;
  up_mobile : option string;
  up_role : option string;
  up_passwordHash : option string
}.

(** The first document with the given [_id] replaced by its image. *)
Fixpoint replace_first (id : string) (f : User -> User) (l : list User)
  : list User :=
  match l with
  | [] => []
  | u :: l' =>
      if bool_decide (_id u = id) then f u :: l'
      else u :: replace_first id f l'
  end.

(** The first document with the given [_id] taken out. *)
Fixpoint delete_first (id : string) (l : list User) : list User :=
  match l with
  | [] => []
  | u :: l' =>
      if bool_decide (_id u = id) then l' else u :: delete_first id l'
  end.

Section Queries.
Context `{P : Platform}.

(** The cast of one value of an update to a String path. *)
Definition cast_value (v : option Json) : Result (option string) :=
  match v with
  | None => Ok None
  | Some (JStr s) => Ok (Some s)
  | Some x =>
      match castString x with
      | Some s => Ok (Some s)
      | None => Throw "CastError"
      end
  end.

(** The cast of the update object; a value that does not cast makes
    the query throw. *)
Definition cast_update (o : UpdateObject) : Result Update :=
  let! email := cast_value (uo_email o) in
  let! username := cast_value (uo_username o) in
  let! mobile := cast_value (uo_mobile o) in
  let! role := cast_value (uo_role o) in
  Ok {| up_email := email; up_username := username; up_mobile := mobile;
        up_role := role; up_passwordHash := uo_passwordHash o |}.

(** What [$set] of the update does to a document; the [email] path
    keeps its setters. *)
Definition apply_update (upd : Update) (u : User) : User :=
  {| _id := _id u;
     email := from_option lowercase_trim (email u) (up_email upd);
     username := default (username u) (up_username upd);
     passwordHash := default (passwordHash u) (up_passwordHash upd);
     mobile := match up_mobile upd with Some m => Some m | None => mobile u end;
     role := default (role u) (up_role upd);
     company := company u;
     createdAt := createdAt u;
     __v := __v u |}.

(** [User.findByIdAndUpdate(id, update, { new: true })]: the id and
    the update are cast, no validators run; the unique index on
    [email] refuses an email another document has. Gives the updated
    document, if there is one, and the collection afterwards. *)
Definition findByIdAndUpdate (s : Db) (id : string) (o : UpdateObject)
  : Result (option User * Db) :=
  if connected s
  then
    match castObjectId (JStr id) with
    | Some oid =>
        let! upd := cast_update o in
        match List.find (fun u => bool_decide (_id u = oid)) (users s) with
        | None => Ok (None, s)
        | Some u =>
            let u' := apply_update upd u in
            if bool_decide (is_Some (up_email upd))
               && bool_decide (email u' ∈ email <$> delete_first oid (users s))
            then Throw "E11000 duplicate key"
            else Ok (Some u',
                     {| users := replace_first oid (apply_update upd) (users s);
                        connected := connected s |})
        end
    | None => Throw "CastError"
    end
  else Throw "MongoNetworkError".

(** [User.findByIdAndDelete(id)] *)
Definition findByIdAndDelete (s : Db) (id : string)
  : Result (option User * Db) :=
  if connected s
  then
    match castObjectId (JStr id) with
    | Some oid =>
        match List.find (fun u => bool_decide (_id u = oid)) (users s) with
        | None => Ok (None, s)
        | Some u =>
            Ok (Some u, {| users := delete_first oid (users s);
                           connected := connected s |})
        end
    | None => Throw "CastError"
    end
  else Throw "MongoNetworkError".

(** The object the routes on one account answer with:
    [{ id, email, username, mobile, role, createdAt }]. *)
Definition account_view (u : User) : Json :=
  JObj ([("id", JStr (_id u));
         ("email", JStr (email u));
         ("username", JStr (username u))]
        ++ opt_field "mobile" (mobile u)
        ++ [("role", JStr (role u));
            ("createdAt", JNum (createdAt u))]).

(** [GET /users/:id], after its gates; [id] is [req.params.id]. *)
Definition get (id : string) (w : World) (req : Request) : Response :=
  try_catch
    (let! u := findById (db w) (Some (JStr id)) in
     match u with
     | None => Ok (json_with [] 404 (error_body "Not found"))
     | Some u => Ok (json_with [] 200 (JObj [("user", account_view u)]))
     end)
    (fun err => json_with [] 500 (error_body "Server error")).

(** The update object of [PUT /users/:id]; hashing the password
    throws when it is not a string. *)
Definition update_object (w : World) (req : Request) : Result UpdateObject :=
  let email := reqBody req !! "email" in
  let username := reqBody req !! "username" in
  let mobile := reqBody req !! "mobile" in
  let role := reqBody req !! "role" in
  let password := reqBody req !! "password" in
  let! passwordHash :=
    (if truthy_opt password
     then let! h := bcrypt_hash_js (default JNull password) (nextSalt w) in
          Ok (Some h)
     else Ok None) in
  Ok {| uo_email := if truthy_opt email then email else None;
        uo_username := if truthy_opt username then username else None;
        uo_mobile := if truthy_opt mobile then mobile else None;
        uo_role := if truthy_opt role then role else None;
        uo_passwordHash := passwordHash |}.

(** [PUT /users/:id], after its gates. *)
Definition update (id : string) (w : World) (req : Request) : Response * World :=
  try_catch
    (let! o := update_object w req in
     let! r := findByIdAndUpdate (db w) id o in
     match r.1 with
     | None => Ok (json_with [] 404 (error_body "Not found"), w)
     | Some updated =>
         Ok (json_with [] 200 (JObj [("user", account_view updated)]),
             with_db w r.2)
     end)
    (fun err => (json_with [] 500 (error_body "Server error"), w)).

(** [DELETE /users/:id], after its gates. *)
Definition remove (id : string) (w : World) (req : Request) : Response * World :=
  try_catch
    (let! r := findByIdAndDelete (db w) id in
     match r.1 with
     | None => Ok (json_with [] 404 (error_body "Not found"), w)
     | Some removed =>
         Ok (json_with [] 200 (JObj [("ok", JBool true)]), with_db w r.2)
     end)
    (fun err => (json_with [] 500 (error_body "Server error"), w)).

End Queries.
End UsersAccount.

(* ===================================================================== *)
(** ** app.js: the CORS allow-list *)
(* ===================================================================== *)

Module Cors.

(** The character of the separator [","]. *)
Definition comma : Ascii.ascii :=
  match "," with
  | String c _ => c
  | EmptyString => Ascii.zero
  end.

(** [s.split(",")] *)
Fixpoint split_comma (s : string) : list string :=
  match s with
  | EmptyString => [EmptyString]
  | String c s' =>
      if Ascii.eqb c comma then EmptyString :: split_comma s'
      else match split_comma s' with
           | [] => [String c EmptyString]
           | piece :: pieces => String c piece :: pieces
           end
  end.

Section Policy.
Context `{P : Platform}.

(** [String.prototype.trim] *)
Variable trim : string -> string.

(** [(process.env.FRONTEND_ORIGINS || "").split(",").map((o) => o.trim())
    .filter(Boolean)] *)
Definition allowedOrigins : list string :=
  List.filter nonempty
    (trim <$> split_comma (or_default (env !! "FRONTEND_ORIGINS") "")).

(** The [origin] option of [cors(...)]: [Ok true] is
    [callback(null, true)], a throw is [callback(new Error(...))]. *)
Definition origin_allowed (origin : option string) : Result bool :=
  if negb (truthy_str origin) then Ok true
  else if bool_decide (default "" origin ∈ allowedOrigins) then Ok true
  else Throw ("CORS blocked: " +:+ default "" origin).

End Policy.
End Cors.

(* ===================================================================== *)
(** ** models/Company.js and seed/defaultCompany.js *)
(* ===================================================================== *)

Module Seed.

Record Company : Type := {
  c_id : string;
  c_name : string;
  c_code : option string;
  c_createdAt : Z;
  c_updatedAt : Z
}.

(** The [companies] collection, and whether the connection works. *)
Record CompanyDb : Type := {
  companies : list Company;
  c_connected : bool
}.

(** [Company.findOne({ name })] *)
Definition findOne_name (s : CompanyDb) (name : string)
  : Result (option Company) :=
  if c_connected s
  then Ok (List.find (fun c => bool_decide (c_name c = name)) (companies s))
  else Throw "MongoNetworkError".

(** [Company.create({ name, code })] at time [now] with [id] the
    generated [_id]: [name] is required, [name] and [code] are unique. *)
Definition create (s : CompanyDb) (id : string) (now : Z) (name code : string)
  : Result (Company * CompanyDb) :=
  if c_connected s
  then
    if negb (nonempty name) then Throw "ValidationError"
    else if bool_decide (name ∈ c_name <$> companies s)
            || bool_decide (Some code ∈ c_code <$> companies s)
    then Throw "E11000 duplicate key"
    else
      let c := {| c_id := id; c_name := name; c_code := Some code;
                  c_createdAt := now; c_updatedAt := now |} in
      Ok (c, {| companies := companies s ++ [c];
                c_connected := c_connected s |})
  else Throw "MongoNetworkError".

Section DefaultCompany.
Context `{P : Platform}.

(** [s.toUpperCase().replace(/\s+/g, "_")] *)
Variable upper_snake : string -> string.

(** [process.env.DEFAULT_COMPANY_NAME || "Bhanu Company"] *)
Definition DEFAULT_COMPANY_NAME : string :=
  or_default (env !! "DEFAULT_COMPANY_NAME") "Bhanu Company".

(** [ensureDefaultCompany()]: the company it returns and the
    collection afterwards. *)
Definition ensureDefaultCompany (s : CompanyDb) (id : string) (now : Z)
  : Result (Company * CompanyDb) :=
  let! company := findOne_name s DEFAULT_COMPANY_NAME in
  match company with
  | None =>
      create s id now DEFAULT_COMPANY_NAME (upper_snake DEFAULT_COMPANY_NAME)
  | Some c => Ok (c, s)
  end.

End DefaultCompany.
End Seed.

(* ===================================================================== *)
(** ** Requests a browser sends *)
(* ===================================================================== *)

(** A body has no key that would carry a password or its hash. *)
Definition no_secret_key (b : Json) : Prop :=
  ("passwordHash" ∉ keys b) /\ ("password" ∉ keys b).

(** The claims login signs for a stored account. *)
Definition claims_of (u : UserModel.User) : Json :=
  JObj [("uid", JStr (UserModel._id u)); ("role", JStr (UserModel.role u));
        ("username", JStr (UserModel.username u))].

(** A request that carries the cookies the browser holds. *)
Definition from_browser (jar : gmap string string) (b : gmap string Json)
  : Request :=
  {| cookies := Some jar; reqBody := b; user := None |}.

(** Whether [res.cookie] takes the configured maximal age. *)
Definition max_age_taken `{P : Platform} : bool :=
  match COOKIE_MAX_AGE with
  | NumLit _ => true
  | NumOfString s => maxAge_valid s
  end.

(* ===================================================================== *)
(** ** More concrete requests and stores *)
(* ===================================================================== *)

Module Scenario.
Import UserModel Demo.

(** A string that is no ObjectId. *)
Definition malformed_id : string := "u9".

(** The id of alice written in upper case. *)
Definition alice_id_upper : string := "64F1A2B3C4D5E6F708192A01".

(** Administration requests: bodies for [PUT /users/:id]. *)
Definition put_nothing : Request := with_cookie "tok.u0".

Definition put_role : Request :=
  {| cookies := Some {[ "session" := "tok.u0" ]};
     reqBody := {[ "role" := JStr "superuser" ]}; user := None |}.

Definition put_password : Request :=
  {| cookies := Some {[ "session" := "tok.u0" ]};
     reqBody := {[ "password" := JStr "new-secret" ]}; user := None |}.

Definition login_new_password : Request :=
  with_body {[ "email" := JStr "a@x.com"; "password" := JStr "new-secret" ]}.

(** A body for [POST /users] with every field. *)
Definition post_user : Request :=
  {| cookies := Some {[ "session" := "tok.u0" ]};
     reqBody := {[ "email" := JStr "b@x.com"; "username" := JStr "bob";
                   "password" := JStr "pw456"; "role" := JStr "admin" ]};
     user := None |}.

(** The platform of [Demo] with two front-end origins configured. *)
Definition with_origins : Platform :=
  with_env {[ "FRONTEND_ORIGINS" := "http://a.test,http://b.test" ]}.

(** The platform of [Demo] with a maximal age that is no number. *)
Definition bad_max_age : Platform :=
  with_env {[ "COOKIE_MAX_AGE" := "abc" ]}.

(** A trim for strings without surrounding white space. *)
Definition trim_nothing (s : string) : string := s.

(** The code of the default company name, other names left alone. *)
Definition code_of (s : string) : string :=
  if bool_decide (s = "Bhanu Company") then "BHANU_COMPANY" else s.

Definition no_companies : Seed.CompanyDb :=
  {| Seed.companies := []; Seed.c_connected := true |}.

End Scenario.

(* ===================================================================== *)
(** * Properties *)
(* ===================================================================== *)

(** [x ∉ [a; b; ...]] for strings or bodies that differ visibly. *)
Ltac not_among :=
  simpl; repeat (rewrite not_elem_of_cons; split; [discriminate|]);
  apply not_elem_of_nil.

(** ** JavaScript values *)

Lemma prop_Some_truthy (v : Json) (k : string) (x : Json) :
  prop v k = Some x -> truthy v = true.
Proof. destruct v; simpl; intros H; try discriminate H; reflexivity. Qed.

Lemma truthy_opt_prop (v : Json) (k : string) :
  truthy_opt (prop v k) = true -> truthy v = true.
Proof.
  destruct (prop v k) as [x|] eqn:E; simpl; intros H; [|discriminate H].
  eapply prop_Some_truthy; eassumption.
Qed.

Lemma strict_neq_str_false (v : option Json) (s : string) :
  strict_neq_str v s = false <-> v = Some (JStr s).
Proof.
  unfold strict_neq_str; split.
  - destruct v as [[| | |t| |]|]; intros H; try discriminate H.
    apply negb_false_iff, bool_decide_eq_true in H. by subst.
  - intros ->. apply negb_false_iff, bool_decide_eq_true. reflexivity.
Qed.

(** ** The stored user as the gate attaches it *)

Section LeanUser.
Import UserModel.

Lemma lean_role (u : User) : prop (lean_without_hash u) "role" = Some (JStr (role u)).
Proof. unfold lean_without_hash. destruct (mobile u); reflexivity. Qed.

Lemma lean_truthy (u : User) : truthy (lean_without_hash u) = true.
Proof. reflexivity. Qed.

Lemma lean_identity (u : User) :
  prop (lean_without_hash u) "_id" = Some (JStr (_id u))
  /\ prop (lean_without_hash u) "email" = Some (JStr (email u))
  /\ prop (lean_without_hash u) "username" = Some (JStr (username u))
  /\ prop (lean_without_hash u) "company" = Some (JStr (company u)).
Proof.
  unfold lean_without_hash. destruct (mobile u); repeat split; reflexivity.
Qed.

Lemma lean_keys (u : User) :
  keys (lean_without_hash u)
  = ["_id"; "email"; "username"]
    ++ match mobile u with Some _ => ["mobile"] | None => [] end
    ++ ["role"; "company"; "createdAt"]
    ++ match __v u with Some _ => ["__v"] | None => [] end.
Proof.
  unfold lean_without_hash. destruct (mobile u), (__v u); reflexivity.
Qed.

Lemma lean_no_passwordHash (u : User) :
  "passwordHash" ∉ keys (lean_without_hash u).
Proof.
  rewrite lean_keys. destruct (mobile u), (__v u); not_among.
Qed.

Lemma lean_no_hash_prop (u : User) :
  prop (lean_without_hash u) "passwordHash" = None.
Proof.
  unfold lean_without_hash. destruct (mobile u), (__v u); reflexivity.
Qed.
End LeanUser.

(** ** The authentication gate of middleware/auth.js *)

Section GateProperties.
Context `{P : Platform}.
Import UserModel Middleware.

Lemma requireAuth_try_token (w : World) (req : Request) (t : string) :
  cookie_get_guarded req COOKIE_NAME = Some t -> nonempty t = true ->
  requireAuth_try w req =
    match jwt_verify t SESSION_SECRET (now w) with
    | None => Ok (invalid_session "Invalid or expired session")
    | Some payload =>
        if negb (truthy payload) || negb (truthy_opt (prop payload "uid"))
        then Ok (invalid_session "Invalid session payload")
        else
          let! user := findById (db w) (prop payload "uid") in
          match user with
          | None => Ok (invalid_session "Session user not found")
          | Some u => Ok (Next (set_user req (lean_without_hash u)))
          end
    end.
Proof.
  intros Ht Hne. unfold requireAuth_try. rewrite Ht. simpl. rewrite Hne.
  reflexivity.
Qed.

Lemma requireAuth_try_resolve (w : World) (req : Request) (t : string)
      (payload : Json) :
  cookie_get_guarded req COOKIE_NAME = Some t -> nonempty t = true ->
  jwt_verify t SESSION_SECRET (now w) = Some payload ->
  truthy_opt (prop payload "uid") = true ->
  requireAuth_try w req =
    let! user := findById (db w) (prop payload "uid") in
    match user with
    | None => Ok (invalid_session "Session user not found")
    | Some u => Ok (Next (set_user req (lean_without_hash u)))
    end.
Proof.
  intros Ht Hne Hv Hu. rewrite (requireAuth_try_token w req t Ht Hne), Hv.
  rewrite (truthy_opt_prop _ _ Hu), Hu. reflexivity.
Qed.

(** C2. The gate goes through Extract, Verify, Claim-shape check,
    Resolve and Attach in this order, and the first stage that fails
    answers 401 whatever the later stages would do: no cookie gives
    "Not authenticated"; a token that does not verify gives "Invalid
    or expired session" and clears the cookie; verified claims
    without a principal identifier give "Invalid session payload" and
    clear the cookie; an identifier with no account in the store gives
    "Session user not found", a 401 and not a server fault, and clears
    the cookie; otherwise the next handler runs on the same request
    with [req.user] set to the stored account: its id, email,
    username, role and company, and no password hash. *)
Theorem requireAuth_stages (w : World) (req : Request) :
  let token := cookie_get_guarded req COOKIE_NAME in
  let rejected := fun msg =>
    Send {| status := 401; body := JObj [("error", JStr msg)];
            cookieOps := [ClearCookie COOKIE_NAME "/"] |} in
  (truthy_str token = false ->
     requireAuth w req
     = Send {| status := 401; body := JObj [("error", JStr "Not authenticated")];
               cookieOps := [] |})
  /\ (forall t, token = Some t -> nonempty t = true ->
      jwt_verify t SESSION_SECRET (now w) = None ->
      requireAuth w req = rejected "Invalid or expired session")
  /\ (forall t payload, token = Some t -> nonempty t = true ->
      jwt_verify t SESSION_SECRET (now w) = Some payload ->
      truthy_opt (prop payload "uid") = false ->
      requireAuth w req = rejected "Invalid session payload")
  /\ (forall t payload, token = Some t -> nonempty t = true ->
      jwt_verify t SESSION_SECRET (now w) = Some payload ->
      truthy_opt (prop payload "uid") = true ->
      findById (db w) (prop payload "uid") = Ok None ->
      requireAuth w req = rejected "Session user not found")
  /\ (forall t payload u, token = Some t -> nonempty t = true ->
      jwt_verify t SESSION_SECRET (now w) = Some payload ->
      truthy_opt (prop payload "uid") = true ->
      findById (db w) (prop payload "uid") = Ok (Some u) ->
      exists req' attached,
        requireAuth w req = Next req'
        /\ req' = set_user req (lean_without_hash u)
        /\ cookies req' = cookies req /\ reqBody req' = reqBody req
        /\ user req' = Some attached
        /\ attached = lean_without_hash u
        /\ prop attached "_id" = Some (JStr (_id u))
        /\ prop attached "email" = Some (JStr (email u))
        /\ prop attached "username" = Some (JStr (username u))
        /\ prop attached "role" = Some (JStr (role u))
        /\ prop attached "company" = Some (JStr (company u))
        /\ prop attached "passwordHash" = None
        /\ "passwordHash" ∉ keys attached).
Proof.
  intros token rejected; subst token rejected. repeat apply conj.
  - intros H. unfold requireAuth, requireAuth_try. rewrite H. reflexivity.
  - intros t Ht Hne Hv. unfold requireAuth.
    rewrite (requireAuth_try_token w req t Ht Hne), Hv. reflexivity.
  - intros t payload Ht Hne Hv Hu. unfold requireAuth.
    rewrite (requireAuth_try_token w req t Ht Hne), Hv, Hu.
    rewrite orb_true_r. reflexivity.
  - intros t payload Ht Hne Hv Hu Hf. unfold requireAuth.
    rewrite (requireAuth_try_resolve w req t payload Ht Hne Hv Hu), Hf.
    reflexivity.
  - intros t payload u Ht Hne Hv Hu Hf.
    exists (set_user req (lean_without_hash u)), (lean_without_hash u).
    destruct (lean_identity u) as (Hid & Hemail & Hname & Hcompany).
    repeat apply conj; try reflexivity; try assumption.
    + unfold requireAuth.
      rewrite (requireAuth_try_resolve w req t payload Ht Hne Hv Hu), Hf.
      reflexivity.
    + apply lean_role.
    + apply lean_no_hash_prop.
    + apply lean_no_passwordHash.
Qed.

(** Every answer of the gate is a 401 that either clears the cookie
    with one of the invalid-session bodies or leaves the cookie alone
    with "Not authenticated" or "Authentication error". *)
Lemma requireAuth_answers (w : World) (req : Request) (res : Response) :
  requireAuth w req = Send res ->
  status res = 401
  /\ ((cookieOps res = [ClearCookie COOKIE_NAME "/"]
       /\ body res ∈ invalid_session_bodies)
      \/ (cookieOps res = []
          /\ body res ∈ [error_body "Not authenticated";
                         error_body "Authentication error"])).
Proof.
  unfold requireAuth, requireAuth_try, invalid_session_bodies.
  destruct (truthy_str (cookie_get_guarded req COOKIE_NAME)); simpl.
  2: { intros [= <-]; simpl. split; [reflexivity|]. right.
       split; [reflexivity | set_solver]. }
  destruct (jwt_verify _ _ _) as [payload|]; simpl.
  2: { intros [= <-]; simpl. split; [reflexivity|]. left.
       split; [reflexivity | set_solver]. }
  destruct (negb (truthy payload) || negb (truthy_opt (prop payload "uid")));
    simpl.
  { intros [= <-]; simpl. split; [reflexivity|]. left.
    split; [reflexivity | set_solver]. }
  destruct (findById (db w) (prop payload "uid")) as [[u|]|e]; simpl.
  - intros [=].
  - intros [= <-]; simpl. split; [reflexivity|]. left.
    split; [reflexivity | set_solver].
  - intros [= <-]; simpl. split; [reflexivity|]. right.
    split; [reflexivity | set_solver].
Qed.

(** C4. A fault raised while the gate runs (after the cookie was
    read: the store that cannot be reached, an identifier that does
    not cast) is caught and answered with "Authentication error", a
    body none of the not-authenticated and invalid-session answers
    has, and with no cookie operation; whenever the gate does clear
    the cookie, its answer is one of the invalid-session ones. *)
Theorem requireAuth_fault_keeps_cookie (w : World) (req : Request) :
  (forall err, requireAuth_try w req = Throw err ->
     requireAuth w req
     = Send (json_with [] 401 (error_body "Authentication error")))
  /\ (forall t payload err,
        cookie_get_guarded req COOKIE_NAME = Some t -> nonempty t = true ->
        jwt_verify t SESSION_SECRET (now w) = Some payload ->
        truthy_opt (prop payload "uid") = true ->
        findById (db w) (prop payload "uid") = Throw err ->
        requireAuth_try w req = Throw err)
  /\ (error_body "Authentication error"
        ∉ error_body "Not authenticated" :: invalid_session_bodies)
  /\ (forall res, requireAuth w req = Send res ->
        cookieOps res <> [] ->
        cookieOps res = [ClearCookie COOKIE_NAME "/"]
        /\ body res ∈ invalid_session_bodies).
Proof.
  repeat apply conj.
  - intros err H. unfold requireAuth. rewrite H. reflexivity.
  - intros t payload err Ht Hne Hv Hu Hf.
    rewrite (requireAuth_try_resolve w req t payload Ht Hne Hv Hu), Hf.
    reflexivity.
  - unfold invalid_session_bodies, error_body. not_among.
  - intros res H Hops. destruct (requireAuth_answers w req res H) as [_ [?|[? _]]];
      [assumption | contradiction].
Qed.

Lemma requireRole_Next (r : string) (w : World) (req req' : Request) :
  requireRole r w req = Next req' ->
  req' = req /\ exists u, user req = Some u /\ truthy u = true
                          /\ prop u "role" = Some (JStr r).
Proof.
  unfold requireRole.
  destruct (user req) as [u|] eqn:Hu; simpl; [|discriminate].
  destruct (truthy u) eqn:Ht; simpl; [|discriminate].
  destruct (strict_neq_str (prop u "role") r) eqn:E; [discriminate|].
  intros [= <-]. split; [reflexivity|]. exists u.
  apply strict_neq_str_false in E. auto.
Qed.

(** C5. The role gate answers 401 "Not authenticated" when no
    principal is attached, 403 "Forbidden" when the principal's role
    is not exactly the required one, and lets the request through
    only when it is; an "admin" principal does not pass a gate that
    requires "user". *)
Theorem requireRole_exact (r : string) (w : World) (req : Request) :
  (truthy_opt (user req) = false ->
     requireRole r w req
     = Send (json_with [] 401 (error_body "Not authenticated")))
  /\ (forall u, user req = Some u -> truthy u = true ->
      prop u "role" <> Some (JStr r) ->
      requireRole r w req = Send (json_with [] 403 (error_body "Forbidden")))
  /\ (forall req', requireRole r w req = Next req' <->
      req' = req /\ exists u, user req = Some u /\ truthy u = true
                              /\ prop u "role" = Some (JStr r))
  /\ (forall u, user req = Some (lean_without_hash u) -> role u = "admin" ->
      requireRole "user" w req
      = Send (json_with [] 403 (error_body "Forbidden"))).
Proof.
  assert (Hforbid : forall r' u, user req = Some u -> truthy u = true ->
            prop u "role" <> Some (JStr r') ->
            requireRole r' w req
            = Send (json_with [] 403 (error_body "Forbidden"))).
  { intros r' u Hu Ht Hr. unfold requireRole. rewrite Hu. simpl. rewrite Ht. simpl.
    destruct (strict_neq_str (prop u "role") r') eqn:E; [reflexivity|].
    apply strict_neq_str_false in E. contradiction. }
  repeat apply conj.
  - intros H. unfold requireRole. rewrite H. reflexivity.
  - apply Hforbid.
  - intros req'. split; [apply requireRole_Next|].
    intros [-> (u & Hu & Ht & Hr)]. unfold requireRole.
    rewrite Hu. simpl. rewrite Ht, Hr. simpl.
    rewrite bool_decide_eq_true_2 by reflexivity. reflexivity.
  - intros u Hu Hr. apply (Hforbid "user" _ Hu (lean_truthy u)).
    rewrite lean_role, Hr. discriminate.
Qed.

End GateProperties.

(** ** Which role decides on an admin-only route *)

Section RoleSource.
Context `{P : Platform}.
Import UserModel.

(** X2. Behind the gate of middleware/auth.js (the admin-only routes of
    the products router) the role of the stored account decides,
    whatever role the token claims. *)
Lemma products_admin_gates_use_store_role (w : World) (req : Request)
      (t : string) (payload : Json) (u : User) :
  cookie_get_guarded req COOKIE_NAME = Some t -> nonempty t = true ->
  jwt_verify t SESSION_SECRET (now w) = Some payload ->
  truthy_opt (prop payload "uid") = true ->
  findById (db w) (prop payload "uid") = Ok (Some u) ->
  chain App.products_admin_gates w req
  = if bool_decide (role u = "admin")
    then Next (set_user req (lean_without_hash u))
    else Send (json_with [] 403 (error_body "Forbidden")).
Proof.
  intros Ht Hne Hv Hu Hf.
  assert (Hgate : Middleware.requireAuth w req
                  = Next (set_user req (lean_without_hash u))).
  { unfold Middleware.requireAuth.
    rewrite (requireAuth_try_resolve w req t payload Ht Hne Hv Hu), Hf.
    reflexivity. }
  unfold App.products_admin_gates, ProductsRoutes.admin_gates.
  cbn [chain]. rewrite Hgate. unfold Middleware.requireRole.
  cbn [user set_user default truthy_opt id]. rewrite lean_truthy, lean_role.
  cbn [negb strict_neq_str].
  destruct (bool_decide (role u = "admin")); reflexivity.
Qed.

(** X1. Behind the application's own gate (every route of the users
    router) the role claim of the token decides, whatever the store
    holds. *)
Lemma users_gates_use_token_claim (w : World) (req : Request)
      (c : gmap string string) (t : string) (payload : Json) :
  cookies req = Some c -> c !! COOKIE_NAME = Some t -> nonempty t = true ->
  jwt_verify t SESSION_SECRET (now w) = Some payload ->
  truthy payload = true ->
  chain App.users_gates w req
  = if strict_neq_str (prop payload "role") "admin"
    then Send (json_with [] 403 (error_body "Forbidden"))
    else Next (set_user req payload).
Proof.
  intros Hc Ht Hne Hv Hp.
  unfold App.users_gates, UsersRoutes.gates, App.requireAuth, cookie_get. simpl.
  rewrite Hc. simpl. rewrite Ht. simpl. rewrite Hne. simpl. rewrite Hv. simpl.
  unfold Middleware.requireRole. simpl. rewrite Hp. simpl.
  destruct (strict_neq_str (prop payload "role") "admin"); reflexivity.
Qed.

End RoleSource.

(** ** The endpoints of routes/auth.js *)

Section AuthEndpoints.
Context `{P : Platform}.
Import UserModel AuthRoutes.


(** C6. [GET /auth/me] always answers 200; without a cookie, with a
    token that does not verify, or when no account is found for the
    token's identifier, the body is [{user: null}]. *)
Theorem me_always_200 (w : World) (req : Request) :
  status (me w req) = 200
  /\ (forall c, cookies req = Some c -> truthy_str (c !! COOKIE_NAME) = false ->
      body (me w req) = JObj [("user", JNull)])
  /\ (forall c t, cookies req = Some c -> c !! COOKIE_NAME = Some t ->
      nonempty t = true -> jwt_verify t SESSION_SECRET (now w) = None ->
      body (me w req) = JObj [("user", JNull)])
  /\ (forall c t payload, cookies req = Some c -> c !! COOKIE_NAME = Some t ->
      nonempty t = true -> jwt_verify t SESSION_SECRET (now w) = Some payload ->
      findById (db w) (prop payload "uid") = Ok None ->
      body (me w req) = JObj [("user", JNull)]).
Proof.
  repeat apply conj.
  - unfold me, cookie_get. destruct (cookies req) as [c|]; simpl; [|reflexivity].
    destruct (truthy_str (c !! COOKIE_NAME)); simpl; [|reflexivity].
    destruct (jwt_verify _ _ _) as [payload|]; simpl; [|reflexivity].
    destruct (findById (db w) (prop payload "uid")) as [[u|]|e]; reflexivity.
  - intros c Hc Ht. unfold me, cookie_get. rewrite Hc. simpl. rewrite Ht.
    reflexivity.
  - intros c t Hc Ht Hne Hv. unfold me, cookie_get. rewrite Hc. simpl.
    rewrite Ht. simpl. rewrite Hne. simpl. rewrite Hv. reflexivity.
  - intros c t payload Hc Ht Hne Hv Hf. unfold me, cookie_get. rewrite Hc. simpl.
    rewrite Ht. simpl. rewrite Hne. simpl. rewrite Hv. simpl. rewrite Hf.
    reflexivity.
Qed.

(** C8. Both logout handlers answer 200 [{ok: true}] and clear the
    session cookie whatever the request holds; after the response the
    browser has no session cookie, and a second logout gives the same
    response and leaves the cookies as the first one left them. *)
Theorem logout_idempotent (w w' : World) (req req' : Request)
        (jar : gmap string string) :
  logout w req = json_with [ClearCookie COOKIE_NAME "/"] 200 (JObj [("ok", JBool true)])
  /\ App.logout w req = logout w req
  /\ logout w' req' = logout w req
  /\ apply_cookies jar (logout w req) !! COOKIE_NAME = None
  /\ apply_cookies (apply_cookies jar (logout w req)) (logout w' req')
     = apply_cookies jar (logout w req).
Proof.
  repeat apply conj; try reflexivity.
  - unfold apply_cookies, logout. simpl. apply lookup_delete_eq.
  - unfold apply_cookies, logout. simpl. apply delete_id, lookup_delete_eq.
Qed.

Lemma res_cookie_options (name value : string) :
  res_cookie name value cookieOptions
  = if max_age_taken then Ok (SetCookie name value cookieOptions)
    else Throw "TypeError: option maxAge is invalid".
Proof.
  unfold res_cookie, max_age_taken. cbn [maxAge cookieOptions].
  destruct COOKIE_MAX_AGE as [n|t]; [reflexivity|].
  destruct (maxAge_valid t); reflexivity.
Qed.

(** What login answers when the credentials are right and the cookie
    can be written. *)
Lemma login_valid (w : World) (req : Request) (e : Json) (p : string) (u : User) :
  reqBody req !! "email" = Some e -> truthy e = true ->
  reqBody req !! "password" = Some (JStr p) -> nonempty p = true ->
  findOne_email (db w) e = Ok (Some u) ->
  bcrypt_compare p (passwordHash u) = true ->
  max_age_taken = true ->
  login w req
  = json_with [SetCookie COOKIE_NAME
                 (jwt_sign (claims_of u) SESSION_SECRET (now w)) cookieOptions]
      200
      (JObj [("user", JObj [("id", JStr (_id u)); ("email", JStr (email u));
                            ("username", JStr (username u));
                            ("role", JStr (role u))])]).
Proof.
  intros He Hne Hp Hnp Hf Hc Hm. unfold login. rewrite He, Hp.
  cbn [truthy_opt truthy default from_option id]. rewrite Hne, Hnp.
  cbn [negb orb]. rewrite Hf. cbn [bind bcrypt_compare_js]. rewrite Hc.
  cbn [negb]. rewrite res_cookie_options, Hm. reflexivity.
Qed.

(** Every run of login: either the credentials are right and the
    cookie can be written, or the answer is an error without a
    cookie. *)
Lemma login_cases (w : World) (req : Request) :
  (exists e p u,
      reqBody req !! "email" = Some e /\ truthy e = true
      /\ reqBody req !! "password" = Some (JStr p) /\ nonempty p = true
      /\ findOne_email (db w) e = Ok (Some u)
      /\ bcrypt_compare p (passwordHash u) = true
      /\ max_age_taken = true)
  \/ (status (login w req) ∈ [400; 401; 500]
      /\ cookieOps (login w req) = []
      /\ exists msg, body (login w req) = error_body msg).
Proof.
  unfold login.
  destruct (reqBody req !! "email") as [e|] eqn:He;
    cbn [truthy_opt negb orb default from_option id];
    [|right; split; [apply list_elem_of_here | split; [reflexivity | eauto]]].
  destruct (truthy e) eqn:Hne; cbn [negb orb];
    [|right; split; [apply list_elem_of_here | split; [reflexivity | eauto]]].
  destruct (reqBody req !! "password") as [p|] eqn:Hp;
    cbn [truthy_opt negb orb default from_option id];
    [|right; split; [apply list_elem_of_here | split; [reflexivity | eauto]]].
  destruct (truthy p) eqn:Hnp; cbn [negb orb];
    [|right; split; [apply list_elem_of_here | split; [reflexivity | eauto]]].
  destruct (findOne_email (db w) e) as [[u|]|err] eqn:Hf; cbn [bind try_catch].
  - destruct p as [| | |p| |]; cbn [bcrypt_compare_js bind try_catch];
      try (right; split;
           [apply list_elem_of_further, list_elem_of_further, list_elem_of_here
           | split; [reflexivity | eauto]]).
    destruct (bcrypt_compare p (passwordHash u)) eqn:Hc; cbn [negb].
    + rewrite res_cookie_options.
      destruct max_age_taken eqn:Hm; cbn [bind try_catch].
      * left. exists e, p, u. auto 10.
      * right. split;
          [apply list_elem_of_further, list_elem_of_further, list_elem_of_here
          | split; [reflexivity | eauto]].
    + right. split; [apply list_elem_of_further, list_elem_of_here
                    | split; [reflexivity | eauto]].
  - right. split; [apply list_elem_of_further, list_elem_of_here
                  | split; [reflexivity | eauto]].
  - right. split;
      [apply list_elem_of_further, list_elem_of_further, list_elem_of_here
      | split; [reflexivity | eauto]].
Qed.

(** Login writes at most one cookie, the session cookie with
    [cookieOptions()]. *)
Lemma login_cookieOps (w : World) (req : Request) (op : CookieOp) :
  op ∈ cookieOps (login w req) ->
  exists token, op = SetCookie COOKIE_NAME token cookieOptions.
Proof.
  destruct (login_cases w req)
    as [(e & p & u & He & Hne & Hp & Hnp & Hf & Hc & Hm) | (_ & Hnil & _)].
  - rewrite (login_valid w req e p u He Hne Hp Hnp Hf Hc Hm). cbn [cookieOps json_with].
    intros H. apply list_elem_of_singleton in H. eauto.
  - rewrite Hnil. intros H. by apply elem_of_nil in H.
Qed.

(** C9. A session cookie written by login has [httpOnly] true,
    [secure] true exactly when [NODE_ENV] is ["production"],
    [sameSite] ["None"] in production and ["Lax"] otherwise, the
    configured max-age and the path ["/"]. *)
Theorem login_cookie_attributes (w : World) (req : Request)
        (name value : string) (opts : CookieOptions) :
  SetCookie name value opts ∈ cookieOps (login w req) ->
  name = COOKIE_NAME
  /\ httpOnly opts = true
  /\ (secure opts = true <-> env !! "NODE_ENV" = Some "production")
  /\ (env !! "NODE_ENV" = Some "production" -> sameSite opts = "None")
  /\ (env !! "NODE_ENV" <> Some "production" -> sameSite opts = "Lax")
  /\ maxAge opts = COOKIE_MAX_AGE
  /\ path opts = "/".
Proof.
  intros H. apply login_cookieOps in H as [token [= -> -> ->]].
  unfold cookieOptions; simpl. repeat apply conj; try reflexivity.
  - apply bool_decide_eq_true.
  - apply bool_decide_eq_true.
  - intros Hprod. rewrite bool_decide_eq_true_2 by assumption. reflexivity.
  - intros Hdev. rewrite bool_decide_eq_false_2 by assumption. reflexivity.
Qed.

End AuthEndpoints.

(** ** Creating accounts *)

Section AccountCreation.
Context `{P : Platform}.
Import UserModel AuthRoutes.

(** What a successful save adds is the validated document. *)
Lemma save_Ok (d : Doc) (s s' : Db) :
  save s d = Ok s' ->
  exists u, validate d = Some u /\ users s' = users s ++ [u]
            /\ role u = d_role d.
Proof.
  unfold save. destruct (connected s); [|discriminate].
  destruct (validate d) as [u|] eqn:Hv; [|discriminate].
  destruct (bool_decide _); [discriminate|]. intros [= <-].
  exists u. repeat split. unfold validate in Hv.
  destruct (_ && _) in Hv; [|discriminate]. by injection Hv as <-.
Qed.

(** A document without a company does not validate. *)
Lemma validate_needs_company (d : Doc) :
  d_company d = None -> validate d = None.
Proof.
  intros H. unfold validate. rewrite H. simpl.
  rewrite andb_false_r. reflexivity.
Qed.

Lemma save_needs_company (d : Doc) (s : Db) :
  d_company d = None -> exists err, save s d = Throw err.
Proof.
  intros H. unfold save. rewrite (validate_needs_company d H).
  destruct (connected s); eauto.
Qed.

Lemma signup_missing_fields (w : World) (req : Request) :
  truthy_opt (reqBody req !! "email") && truthy_opt (reqBody req !! "username")
  && truthy_opt (reqBody req !! "password") && truthy_opt (reqBody req !! "mobile")
  = false ->
  signup w req = (json_with [] 400 (error_body "Missing fields"), w).
Proof.
  intros H. unfold signup.
  destruct (truthy_opt (reqBody req !! "email")),
           (truthy_opt (reqBody req !! "username")),
           (truthy_opt (reqBody req !! "password")),
           (truthy_opt (reqBody req !! "mobile"));
    try discriminate H; reflexivity.
Qed.

Lemma signup_email_in_use (w : World) (req : Request) (e : Json) (u : User) :
  reqBody req !! "email" = Some e -> truthy e = true ->
  truthy_opt (reqBody req !! "username") = true ->
  truthy_opt (reqBody req !! "password") = true ->
  truthy_opt (reqBody req !! "mobile") = true ->
  findOne_email (db w) e = Ok (Some u) ->
  signup w req = (json_with [] 400 (error_body "Email already in use"), w).
Proof.
  intros He Hne Hu Hp Hm Hf. unfold signup.
  rewrite He, Hu, Hp, Hm. cbn [truthy_opt default from_option id].
  rewrite Hne. cbn [negb orb]. rewrite Hf. reflexivity.
Qed.

(** With every field given and an email the store does not know, the
    handler ends in its [catch]: hashing a password that is no string
    throws, and [user.save()] rejects the document for its missing
    [company]. The answer is 500 and nothing is stored. *)
Lemma signup_unused_email_fails (w : World) (req : Request) (e : Json) :
  reqBody req !! "email" = Some e -> truthy e = true ->
  truthy_opt (reqBody req !! "username") = true ->
  truthy_opt (reqBody req !! "password") = true ->
  truthy_opt (reqBody req !! "mobile") = true ->
  findOne_email (db w) e = Ok None ->
  signup w req = (json_with [] 500 (error_body "Server error"), w).
Proof.
  intros He Hne Hu Hp Hm Hf. unfold signup.
  rewrite Hu, Hp, Hm, He. cbn [truthy_opt default from_option id].
  rewrite Hne. cbn [negb orb]. rewrite Hf. cbn [bind].
  rewrite bool_decide_eq_false_2 by (intros [? [=]]).
  destruct (bcrypt_hash_js _ _) as [hash|err]; cbn [bind try_catch];
    [|reflexivity].
  destruct (save_needs_company (signup_doc w req hash) (db w) eq_refl)
    as [err Herr].
  rewrite Herr. reflexivity.
Qed.

(** X8. The signup handler never answers 201 and never changes the store. *)
Lemma signup_never_creates (w : World) (req : Request) :
  status (fst (signup w req)) <> 201 /\ snd (signup w req) = w.
Proof.
  unfold signup.
  destruct (negb _ || negb _ || negb _ || negb _); simpl; [by split|].
  destruct (findOne_email _ _) as [existing|err]; simpl; [|by split].
  destruct (bool_decide (is_Some existing)); simpl; [by split|].
  destruct (bcrypt_hash_js _ _) as [hash|err]; cbn [bind try_catch];
    [|by split].
  destruct (save_needs_company (signup_doc w req hash) (db w) eq_refl)
    as [err Herr].
  rewrite Herr. simpl. by split.
Qed.

(** C10. The document the signup handler builds has role "user"
    whatever the body holds; an account that signup adds to the store
    has role "user"; two bodies that agree on email, username,
    password and mobile (and may differ in a role field) get the same
    result. Of the two handlers that create accounts, [POST /users]
    alone takes the role from its body, and a request reaches it only
    with a principal whose role is "admin". *)
Theorem signup_role_is_user (w : World) (req req' : Request) :
  (forall hash, d_role (signup_doc w req hash) = "user")
  /\ (forall u, u ∈ users (db (snd (signup w req))) ->
      u ∈ users (db w) \/ role u = "user")
  /\ (reqBody req' !! "email" = reqBody req !! "email" ->
      reqBody req' !! "username" = reqBody req !! "username" ->
      reqBody req' !! "password" = reqBody req !! "password" ->
      reqBody req' !! "mobile" = reqBody req !! "mobile" ->
      signup w req' = signup w req)
  /\ (forall r hash, reqBody req !! "role" = Some (JStr r) -> nonempty r = true ->
      d_role (UsersRoutes.create_doc w req hash) = r)
  /\ (forall req1, chain App.users_gates w req = Next req1 ->
      exists u, user req1 = Some u /\ prop u "role" = Some (JStr "admin")).
Proof.
  repeat apply conj.
  - reflexivity.
  - intros u. unfold signup.
    destruct (negb _ || negb _ || negb _ || negb _); simpl; [by left|].
    destruct (findOne_email _ _) as [existing|err]; simpl; [|by left].
    destruct (bool_decide (is_Some existing)); simpl; [by left|].
    destruct (bcrypt_hash_js _ _) as [hash|err]; cbn [bind try_catch snd];
      [|by left].
    destruct (save (db w) (signup_doc w req hash)) as [s'|err] eqn:Hs;
      cbn [bind try_catch snd db with_db]; [|by left].
    apply save_Ok in Hs as (u' & _ & Husers & Hrole).
    rewrite Husers, elem_of_app, list_elem_of_singleton.
    intros [Hin | ->]; [by left | right]. rewrite Hrole. reflexivity.
  - intros He Hu Hp Hm. unfold signup, signup_doc.
    rewrite He, Hu, Hp, Hm. reflexivity.
  - intros r hash Hr Hne. unfold UsersRoutes.create_doc, new.
    cbn [d_role i_role]. rewrite Hr. cbn [or_default_js truthy]. rewrite Hne.
    reflexivity.
  - intros req1. unfold App.users_gates, UsersRoutes.gates. cbn [chain].
    destruct (App.requireAuth w req) as [req0|res]; [|discriminate].
    destruct (Middleware.requireRole "admin" w req0) as [req2|res] eqn:Hrole;
      [|discriminate].
    intros [= <-]. apply requireRole_Next in Hrole as [-> (u & Hu & _ & Hr)].
    eauto.
Qed.

End AccountCreation.

(* ===================================================================== *)
(** * The handlers on concrete requests *)
(* ===================================================================== *)

Section Runs.
Import UserModel Demo.
#[local] Existing Instance platform.

(** C1. Alice logged in as a "user" and was then made "admin" in the
    store; her token is still valid and still claims "user". Her next
    request to an admin-only route of the users router, which sits
    behind the application's own gate, is refused with 403: there the
    role claim of the token decides. The same request to an
    admin-only route of the products router passes, with the stored
    role attached. *)
Theorem users_route_refuses_promoted_admin :
  let req := with_cookie "tok.u1" in
  jwt_verify "tok.u1" SESSION_SECRET (now world_promoted) = Some alice_claims
  /\ prop alice_claims "role" = Some (JStr "user")
  /\ findById (db world) (Some (JStr alice_id)) = Ok (Some alice)
  /\ role alice = "user"
  /\ findById (db world_promoted) (Some (JStr alice_id)) = Ok (Some alice_admin)
  /\ role alice_admin = "admin"
  /\ chain App.users_gates world_promoted req
     = Send (json_with [] 403 (error_body "Forbidden"))
  /\ chain App.products_admin_gates world_promoted req
     = Next (set_user req (lean_without_hash alice_admin)).
Proof. cbv zeta. repeat apply conj; vm_compute; reflexivity. Qed.

(** C7. A signup with all four fields and an email nobody uses: the
    handler answers 500 "Server error" and the store is as before,
    because the document it saves has no [company], which the schema
    requires. *)
Theorem signup_valid_request_is_rejected :
  let req := with_body signup_body in
  let hash := bcrypt_hash "pw456" (nextSalt world) in
  truthy_opt (reqBody req !! "email") = true
  /\ truthy_opt (reqBody req !! "username") = true
  /\ truthy_opt (reqBody req !! "password") = true
  /\ truthy_opt (reqBody req !! "mobile") = true
  /\ findOne_email (db world) (JStr "b@x.com") = Ok None
  /\ bcrypt_hash_js (JStr "pw456") (nextSalt world) = Ok hash
  /\ d_company (AuthRoutes.signup_doc world req hash) = None
  /\ save (db world) (AuthRoutes.signup_doc world req hash)
     = Throw "ValidationError"
  /\ AuthRoutes.signup world req
     = (json_with [] 500 (error_body "Server error"), world).
Proof. cbv zeta. repeat apply conj; vm_compute; reflexivity. Qed.

Lemma requireAuth_stages_witness :
  Middleware.requireAuth world (with_body ∅)
  = Send (json_with [] 401 (error_body "Not authenticated"))
  /\ Middleware.requireAuth world (with_cookie "forged")
     = invalid_session "Invalid or expired session"
  /\ Middleware.requireAuth world (with_cookie "tok.anonymous")
     = invalid_session "Invalid session payload"
  /\ Middleware.requireAuth world_deleted (with_cookie "tok.u1")
     = invalid_session "Session user not found"
  /\ exists req',
      Middleware.requireAuth world (with_cookie "tok.u1") = Next req'
      /\ cookies req' = Some {[ "session" := "tok.u1" ]}
      /\ user req' = Some (lean_without_hash alice)
      /\ prop (lean_without_hash alice) "_id" = Some (JStr alice_id)
      /\ prop (lean_without_hash alice) "role" = Some (JStr "user")
      /\ prop (lean_without_hash alice) "passwordHash" = None.
Proof.
  repeat apply conj.
  - apply (proj1 (requireAuth_stages world (with_body ∅))).
    vm_compute; reflexivity.
  - destruct (requireAuth_stages world (with_cookie "forged")) as (_ & H & _).
    apply (H "forged"); vm_compute; reflexivity.
  - destruct (requireAuth_stages world (with_cookie "tok.anonymous"))
      as (_ & _ & H & _).
    apply (H "tok.anonymous" (JObj [("username", JStr "ghost")]));
      vm_compute; reflexivity.
  - destruct (requireAuth_stages world_deleted (with_cookie "tok.u1"))
      as (_ & _ & _ & H & _).
    apply (H "tok.u1" alice_claims); vm_compute; reflexivity.
  - destruct (requireAuth_stages world (with_cookie "tok.u1"))
      as (_ & _ & _ & _ & H).
    destruct (H "tok.u1" alice_claims alice)
      as (req' & attached & Hgate & _ & Hcookies & _ & Huser & -> & Hid & _
          & _ & Hrole & _ & Hhash & _);
      try (vm_compute; reflexivity).
    exists req'. repeat split; assumption.
Defined.

Lemma requireAuth_fault_keeps_cookie_witness :
  Middleware.requireAuth_try world_down (with_cookie "tok.u1")
  = Throw "MongoNetworkError"
  /\ Middleware.requireAuth world_down (with_cookie "tok.u1")
     = Send (json_with [] 401 (error_body "Authentication error"))
  /\ (cookieOps (json_with [ClearCookie COOKIE_NAME "/"] 401
                   (error_body "Session user not found"))
      = [ClearCookie COOKIE_NAME "/"]
      /\ error_body "Session user not found" ∈ invalid_session_bodies).
Proof.
  destruct (requireAuth_fault_keeps_cookie world_down (with_cookie "tok.u1"))
    as (Hcatch & Hthrow & _ & _).
  destruct (requireAuth_fault_keeps_cookie world_deleted (with_cookie "tok.u1"))
    as (_ & _ & _ & Hclear).
  assert (Ht : Middleware.requireAuth_try world_down (with_cookie "tok.u1")
               = Throw "MongoNetworkError").
  { apply (Hthrow "tok.u1" alice_claims); vm_compute; reflexivity. }
  split; [exact Ht|]. split; [exact (Hcatch _ Ht)|].
  apply (Hclear (json_with [ClearCookie COOKIE_NAME "/"] 401
                   (error_body "Session user not found"))).
  - vm_compute; reflexivity.
  - discriminate.
Defined.

Lemma requireRole_exact_witness :
  Middleware.requireRole "admin" world (with_cookie "tok.u1")
  = Send (json_with [] 401 (error_body "Not authenticated"))
  /\ Middleware.requireRole "admin" world as_alice
     = Send (json_with [] 403 (error_body "Forbidden"))
  /\ Middleware.requireRole "admin" world as_admin = Next as_admin
  /\ Middleware.requireRole "user" world as_admin
     = Send (json_with [] 403 (error_body "Forbidden")).
Proof.
  repeat apply conj.
  - apply (proj1 (requireRole_exact "admin" world (with_cookie "tok.u1"))).
    reflexivity.
  - destruct (requireRole_exact "admin" world as_alice) as (_ & H & _).
    apply (H (lean_without_hash alice)); [reflexivity | reflexivity | discriminate].
  - destruct (requireRole_exact "admin" world as_admin) as (_ & _ & H & _).
    apply H. split; [reflexivity|].
    exists (lean_without_hash alice_admin). repeat split.
  - destruct (requireRole_exact "user" world as_admin) as (_ & _ & _ & H).
    apply (H alice_admin); reflexivity.
Defined.



Lemma me_always_200_witness :
  status (AuthRoutes.me world_down (with_cookie "tok.u1")) = 200
  /\ body (AuthRoutes.me world (with_body ∅)) = JObj [("user", JNull)]
  /\ body (AuthRoutes.me world (with_cookie "forged")) = JObj [("user", JNull)]
  /\ body (AuthRoutes.me world_deleted (with_cookie "tok.u1"))
     = JObj [("user", JNull)].
Proof.
  repeat apply conj.
  - apply (proj1 (me_always_200 world_down (with_cookie "tok.u1"))).
  - destruct (me_always_200 world (with_body ∅)) as (_ & H & _).
    apply (H ∅); vm_compute; reflexivity.
  - destruct (me_always_200 world (with_cookie "forged")) as (_ & _ & H & _).
    apply (H {[ "session" := "forged" ]} "forged"); vm_compute; reflexivity.
  - destruct (me_always_200 world_deleted (with_cookie "tok.u1"))
      as (_ & _ & _ & H).
    apply (H {[ "session" := "tok.u1" ]} "tok.u1" alice_claims);
      vm_compute; reflexivity.
Defined.

Lemma login_cookie_attributes_witness :
  SetCookie "session" "tok.u1" AuthRoutes.cookieOptions
    ∈ cookieOps (AuthRoutes.login world login_alice)
  /\ "session" = COOKIE_NAME
  /\ httpOnly AuthRoutes.cookieOptions = true
  /\ (secure AuthRoutes.cookieOptions = true
      <-> env !! "NODE_ENV" = Some "production")
  /\ (env !! "NODE_ENV" = Some "production"
      -> sameSite AuthRoutes.cookieOptions = "None")
  /\ (env !! "NODE_ENV" <> Some "production"
      -> sameSite AuthRoutes.cookieOptions = "Lax")
  /\ maxAge AuthRoutes.cookieOptions = COOKIE_MAX_AGE
  /\ path AuthRoutes.cookieOptions = "/".
Proof.
  assert (H : SetCookie "session" "tok.u1" AuthRoutes.cookieOptions
                ∈ cookieOps (AuthRoutes.login world login_alice)).
  { vm_compute. apply list_elem_of_here. }
  split; [exact H|].
  exact (login_cookie_attributes world login_alice "session" "tok.u1"
           AuthRoutes.cookieOptions H).
Defined.

(** The same login in production and in development. *)
Lemma login_cookie_in_production :
  cookieOps (AuthRoutes.login (P := production) world login_alice)
  = [SetCookie "session" "tok.u1"
       {| httpOnly := true; secure := true; sameSite := "None";
          maxAge := NumLit 86400000; path := "/" |}]
  /\ cookieOps (AuthRoutes.login world login_alice)
     = [SetCookie "session" "tok.u1"
          {| httpOnly := true; secure := false; sameSite := "Lax";
             maxAge := NumLit 86400000; path := "/" |}].
Proof. split; vm_compute; reflexivity. Qed.

Lemma signup_role_is_user_witness :
  d_role (AuthRoutes.signup_doc world (with_body signup_body_admin)
            "$2a$10$salt$pw456") = "user"
  /\ AuthRoutes.signup world (with_body signup_body_admin)
     = AuthRoutes.signup world (with_body signup_body)
  /\ d_role (UsersRoutes.create_doc world (with_body signup_body_admin)
               "$2a$10$salt$pw456") = "admin"
  /\ exists u, user (set_user (with_cookie "tok.u0") root_claims) = Some u
               /\ prop u "role" = Some (JStr "admin").
Proof.
  destruct (signup_role_is_user world (with_body signup_body)
              (with_body signup_body_admin)) as (_ & _ & Hsame & _).
  destruct (signup_role_is_user world (with_body signup_body_admin)
              (with_body signup_body)) as (Hrole & _ & _ & Hcreate & _).
  destruct (signup_role_is_user world (with_cookie "tok.u0") (with_cookie "tok.u0"))
    as (_ & _ & _ & _ & Hgate).
  split; [exact (Hrole _)|]. split; [|split].
  - apply Hsame; vm_compute; reflexivity.
  - apply (Hcreate "admin"); vm_compute; reflexivity.
  - apply Hgate. vm_compute; reflexivity.
Defined.

End Runs.

(* ===================================================================== *)
(** * Further properties of the handlers *)
(* ===================================================================== *)

(** ** Sessions: from login to the gates and back *)

Section Sessions.
Context `{P : Platform}.
Import UserModel AuthRoutes.

(** X3. Login answers 200, 400, 401 or 500; it answers 200 exactly when
    email and password are given, the store has an account for the
    email, the password is a string that matches its hash and
    [res.cookie] takes the configured maximal age; and it writes a
    cookie exactly when it answers 200. *)
Theorem login_cookie_iff_valid (w : World) (req : Request) :
  status (login w req) ∈ [200; 400; 401; 500]
  /\ (status (login w req) = 200 <->
      exists e p u,
        reqBody req !! "email" = Some e /\ truthy e = true
        /\ reqBody req !! "password" = Some (JStr p) /\ nonempty p = true
        /\ findOne_email (db w) e = Ok (Some u)
        /\ bcrypt_compare p (passwordHash u) = true
        /\ max_age_taken = true)
  /\ (cookieOps (login w req) <> [] <-> status (login w req) = 200).
Proof.
  set (valid := exists e p u,
        reqBody req !! "email" = Some e /\ truthy e = true
        /\ reqBody req !! "password" = Some (JStr p) /\ nonempty p = true
        /\ findOne_email (db w) e = Ok (Some u)
        /\ bcrypt_compare p (passwordHash u) = true
        /\ max_age_taken = true).
  assert (Hvalid : valid ->
            status (login w req) = 200 /\ cookieOps (login w req) <> []).
  { intros (e & p & u & He & Hne & Hp & Hnp & Hf & Hc & Hm).
    rewrite (login_valid w req e p u He Hne Hp Hnp Hf Hc Hm). by split. }
  assert (Hcases : valid \/ (status (login w req) ∈ [400; 401; 500]
                             /\ cookieOps (login w req) = [])).
  { destruct (login_cases w req) as [Hv | (Hst & Hnil & _)]; [by left | by right]. }
  assert (Hnot200 : status (login w req) ∈ [400; 401; 500] ->
                    status (login w req) <> 200).
  { intros Hin H200. rewrite H200 in Hin.
    rewrite !elem_of_cons in Hin. destruct Hin as [|[|[|Hin]]]; try discriminate.
    by apply elem_of_nil in Hin. }
  repeat apply conj.
  - destruct Hcases as [Hv | [Hin _]].
    + destruct (Hvalid Hv) as [-> _]. apply list_elem_of_here.
    + by apply list_elem_of_further.
  - intros H200. destruct Hcases as [Hv | [Hin _]]; [exact Hv|].
    by destruct (Hnot200 Hin).
  - intros Hv. by destruct (Hvalid Hv).
  - intros Hops. destruct Hcases as [Hv | [_ Hnil]]; [by destruct (Hvalid Hv)|].
    contradiction.
  - intros H200. destruct Hcases as [Hv | [Hin _]]; [by destruct (Hvalid Hv)|].
    by destruct (Hnot200 Hin).
Qed.

(** X4. When a login succeeds (right credentials, a maximal age that
    [res.cookie] takes), the cookie it leaves in the browser opens the
    gate of middleware/auth.js for as long as the token verifies, and
    what the gate attaches is the account as the store holds it at
    that moment, not as it was at login. *)
Theorem login_then_requireAuth (w w' : World) (req : Request)
        (jar : gmap string string) (b : gmap string Json)
        (e : Json) (p : string) (u u' : User) (payload : Json) :
  reqBody req !! "email" = Some e -> truthy e = true ->
  reqBody req !! "password" = Some (JStr p) -> nonempty p = true ->
  findOne_email (db w) e = Ok (Some u) ->
  bcrypt_compare p (passwordHash u) = true ->
  max_age_taken = true ->
  nonempty (jwt_sign (claims_of u) SESSION_SECRET (now w)) = true ->
  jwt_verify (jwt_sign (claims_of u) SESSION_SECRET (now w))
             SESSION_SECRET (now w') = Some payload ->
  prop payload "uid" = Some (JStr (_id u)) -> nonempty (_id u) = true ->
  findById (db w') (Some (JStr (_id u))) = Ok (Some u') ->
  let req' := from_browser (apply_cookies jar (login w req)) b in
  Middleware.requireAuth w' req' = Next (set_user req' (lean_without_hash u'))
  /\ prop (lean_without_hash u') "role" = Some (JStr (role u'))
  /\ exists next, Middleware.requireAuth w' req' = Next next
      /\ user next = Some (lean_without_hash u')
      /\ cookies next = cookies req' /\ reqBody next = b.
Proof.
  intros He Hne Hp Hnp Hf Hc Hm Hnt Hv Huid Hnid Hf' req'.
  assert (Hjar : cookie_get_guarded req' COOKIE_NAME
                 = Some (jwt_sign (claims_of u) SESSION_SECRET (now w))).
  { unfold req', from_browser, cookie_get_guarded, apply_cookies. simpl.
    rewrite (login_valid w req e p u He Hne Hp Hnp Hf Hc Hm). simpl.
    apply lookup_insert_eq. }
  assert (Hgate : Middleware.requireAuth w' req'
                  = Next (set_user req' (lean_without_hash u'))).
  { unfold Middleware.requireAuth.
    rewrite (requireAuth_try_resolve w' req' _ payload Hjar Hnt Hv).
    - rewrite Huid, Hf'. reflexivity.
    - rewrite Huid. exact Hnid. }
  split; [exact Hgate|]. split; [apply lean_role|].
  exists (set_user req' (lean_without_hash u')). by repeat split.
Qed.

(** X5. When a login succeeds, [GET /auth/me] with the cookie it left
    answers with the stored account without its password hash and
    leaves the cookie alone. *)
Theorem login_then_me (w w' : World) (req : Request)
        (jar : gmap string string) (b : gmap string Json)
        (e : Json) (p : string) (u u' : User) (payload : Json) :
  reqBody req !! "email" = Some e -> truthy e = true ->
  reqBody req !! "password" = Some (JStr p) -> nonempty p = true ->
  findOne_email (db w) e = Ok (Some u) ->
  bcrypt_compare p (passwordHash u) = true ->
  max_age_taken = true ->
  nonempty (jwt_sign (claims_of u) SESSION_SECRET (now w)) = true ->
  jwt_verify (jwt_sign (claims_of u) SESSION_SECRET (now w))
             SESSION_SECRET (now w') = Some payload ->
  prop payload "uid" = Some (JStr (_id u)) ->
  findById (db w') (Some (JStr (_id u))) = Ok (Some u') ->
  me w' (from_browser (apply_cookies jar (login w req)) b)
  = {| status := 200; body := JObj [("user", lean_without_hash u')];
       cookieOps := [] |}
  /\ "passwordHash" ∉ keys (lean_without_hash u').
Proof.
  intros He Hne Hp Hnp Hf Hc Hm Hnt Hv Huid Hf'.
  split; [|apply lean_no_passwordHash].
  unfold me, cookie_get, from_browser, apply_cookies. simpl.
  rewrite (login_valid w req e p u He Hne Hp Hnp Hf Hc Hm). simpl.
  rewrite lookup_insert_eq. simpl. rewrite Hnt. simpl. rewrite Hv. simpl.
  rewrite Huid, Hf'. reflexivity.
Qed.

(** X6. After a logout the browser holds no session cookie: its next
    [GET /auth/me] gets [{user: null}] and both gates answer 401 "Not
    authenticated", none of them touching the cookies again. *)
Theorem logout_then_anonymous (w w' : World) (req0 : Request)
        (jar : gmap string string) (b : gmap string Json) :
  let req := from_browser (apply_cookies jar (logout w req0)) b in
  me w' req = json_with [] 200 (JObj [("user", JNull)])
  /\ Middleware.requireAuth w' req
     = Send (json_with [] 401 (error_body "Not authenticated"))
  /\ App.requireAuth w' req
     = Send (json_with [] 401 (error_body "Not authenticated")).
Proof.
  intros req.
  assert (Hnone : apply_cookies jar (logout w req0) !! COOKIE_NAME = None).
  { unfold apply_cookies, logout. simpl. apply lookup_delete_eq. }
  repeat apply conj.
  - unfold me, cookie_get, req, from_browser. simpl. rewrite Hnone. reflexivity.
  - unfold Middleware.requireAuth, Middleware.requireAuth_try,
      cookie_get_guarded, req, from_browser. simpl. rewrite Hnone. reflexivity.
  - unfold App.requireAuth, cookie_get, req, from_browser. simpl.
    rewrite Hnone. reflexivity.
Qed.

(** X7. When the request carries a token, [GET /auth/me] leaves the cookie
    alone only if the token verifies and its account is found; in every
    other case, a store that cannot be reached included, it clears the
    cookie and answers [{user: null}]. *)
Theorem me_clears_unresolved (w : World) (req : Request)
        (c : gmap string string) (t : string) :
  cookies req = Some c -> c !! COOKIE_NAME = Some t -> nonempty t = true ->
  (forall payload u,
      jwt_verify t SESSION_SECRET (now w) = Some payload ->
      findById (db w) (prop payload "uid") = Ok (Some u) ->
      me w req = json_with [] 200 (JObj [("user", lean_without_hash u)]))
  /\ ((forall payload u,
         jwt_verify t SESSION_SECRET (now w) = Some payload ->
         findById (db w) (prop payload "uid") <> Ok (Some u)) ->
      me w req
      = json_with [ClearCookie COOKIE_NAME "/"] 200 (JObj [("user", JNull)]))
  /\ (connected (db w) = false ->
      me w req
      = json_with [ClearCookie COOKIE_NAME "/"] 200 (JObj [("user", JNull)])).
Proof.
  intros Hc Ht Hne.
  assert (Hme : me w req
    = match jwt_verify t SESSION_SECRET (now w) with
      | None => json_with [ClearCookie COOKIE_NAME "/"] 200 (JObj [("user", JNull)])
      | Some payload =>
          match findById (db w) (prop payload "uid") with
          | Ok (Some u) => json_with [] 200 (JObj [("user", lean_without_hash u)])
          | _ => json_with [ClearCookie COOKIE_NAME "/"] 200 (JObj [("user", JNull)])
          end
      end).
  { unfold me, cookie_get. rewrite Hc. simpl. rewrite Ht. simpl. rewrite Hne.
    simpl. destruct (jwt_verify _ _ _) as [payload|]; simpl; [|reflexivity].
    destruct (findById _ _) as [[u|]|err]; reflexivity. }
  repeat apply conj.
  - intros payload u Hv Hf. rewrite Hme, Hv, Hf. reflexivity.
  - intros Hno. rewrite Hme.
    destruct (jwt_verify _ _ _) as [payload|]; [|reflexivity].
    destruct (findById _ _) as [[u|]|err] eqn:Hf; try reflexivity.
    exfalso. exact (Hno payload u eq_refl Hf).
  - intros Hdown. rewrite Hme.
    destruct (jwt_verify _ _ _) as [payload|]; [|reflexivity].
    unfold findById. rewrite Hdown. reflexivity.
Qed.

End Sessions.

(** ** The collection under update and delete *)

Section Collection.
Import UserModel UsersAccount.

Lemma find_id_None (id : string) (l : list User) :
  List.find (fun u => bool_decide (_id u = id)) l = None <-> id ∉ _id <$> l.
Proof.
  induction l as [|v l IH]; csimpl.
  - split; [intros _; apply not_elem_of_nil | reflexivity].
  - rewrite not_elem_of_cons. destruct (bool_decide_reflect (_id v = id)) as [E|E].
    + split; [discriminate | intros [H _]; congruence].
    + rewrite IH. split; [intros H; split; [congruence | exact H] | intros [_ H]; exact H].
Qed.

Lemma find_id_Some (id : string) (l : list User) (u : User) :
  List.find (fun u => bool_decide (_id u = id)) l = Some u ->
  _id u = id /\ u ∈ l.
Proof.
  induction l as [|v l IH]; csimpl; [discriminate|].
  destruct (bool_decide_reflect (_id v = id)) as [E|E].
  - intros [= <-]. split; [exact E | apply list_elem_of_here].
  - intros H. destruct (IH H) as [? ?]. split; [assumption|].
    by apply list_elem_of_further.
Qed.

Lemma same_id_same_doc (l : list User) (u v : User) :
  NoDup (_id <$> l) -> u ∈ l -> v ∈ l -> _id u = _id v -> u = v.
Proof.
  induction l as [|x l IH]; csimpl.
  - intros _ H. by apply elem_of_nil in H.
  - rewrite NoDup_cons. intros [Hx Hl]. rewrite !elem_of_cons.
    intros [->|Hu] [->|Hv] E; try reflexivity.
    + exfalso. apply Hx. rewrite E. by apply list_elem_of_fmap_2.
    + exfalso. apply Hx. rewrite <- E. by apply list_elem_of_fmap_2.
    + by apply IH.
Qed.

Lemma replace_first_ids (id : string) (f : User -> User) (l : list User) :
  (forall u, _id (f u) = _id u) ->
  _id <$> replace_first id f l = _id <$> l.
Proof.
  intros Hf. induction l as [|v l IH]; csimpl; [reflexivity|].
  destruct (bool_decide (_id v = id)); csimpl; [by rewrite Hf | by rewrite IH].
Qed.

Lemma replace_first_fixed (id : string) (f : User -> User) (l : list User) :
  (forall u, f u = u) -> replace_first id f l = l.
Proof.
  intros Hf. induction l as [|v l IH]; csimpl; [reflexivity|].
  destruct (bool_decide (_id v = id)); [by rewrite Hf | by rewrite IH].
Qed.

Lemma replace_first_other (id : string) (f : User -> User) (l : list User)
      (v : User) :
  (forall u, _id (f u) = _id u) -> _id v <> id ->
  v ∈ replace_first id f l <-> v ∈ l.
Proof.
  intros Hf Hv. induction l as [|x l IH]; csimpl; [reflexivity|].
  destruct (bool_decide_reflect (_id x = id)) as [E|E].
  - rewrite !elem_of_cons. split; (intros [->|H]; [exfalso|by right]).
    + apply Hv. by rewrite Hf.
    + by apply Hv.
  - rewrite !elem_of_cons, IH. reflexivity.
Qed.

Lemma replace_first_unique (id : string) (f : User -> User) (l : list User) :
  NoDup (_id <$> l) ->
  replace_first id f l
  = (fun u => if bool_decide (_id u = id) then f u else u) <$> l.
Proof.
  induction l as [|x l IH]; csimpl; [reflexivity|].
  rewrite NoDup_cons. intros [Hx Hl].
  destruct (bool_decide_reflect (_id x = id)) as [E|E].
  - f_equal. rewrite <- (list_fmap_id l) at 1. apply list_fmap_ext.
    intros i v Hv. csimpl. rewrite bool_decide_eq_false_2; [reflexivity|].
    intros Hid. apply Hx. rewrite E, <- Hid.
    apply list_elem_of_fmap_2. by eapply list_elem_of_lookup_2.
  - f_equal. by apply IH.
Qed.

Lemma replace_first_found (id : string) (f : User -> User) (l : list User)
      (u : User) :
  (forall u, _id (f u) = _id u) ->
  List.find (fun u => bool_decide (_id u = id)) l = Some u ->
  List.find (fun u => bool_decide (_id u = id)) (replace_first id f l)
  = Some (f u).
Proof.
  intros Hf. induction l as [|x l IH]; csimpl; [discriminate|].
  destruct (bool_decide_reflect (_id x = id)) as [E|E]; csimpl.
  - intros [= <-]. rewrite bool_decide_eq_true_2 by (by rewrite Hf). reflexivity.
  - intros H. rewrite bool_decide_eq_false_2 by exact E. by apply IH.
Qed.

Lemma replace_first_perm (id : string) (f : User -> User) (l : list User)
      (u : User) :
  List.find (fun u => bool_decide (_id u = id)) l = Some u ->
  replace_first id f l ≡ₚ f u :: delete_first id l
  /\ l ≡ₚ u :: delete_first id l.
Proof.
  induction l as [|x l IH]; csimpl; [discriminate|].
  destruct (bool_decide (_id x = id)).
  - intros [= <-]. split; reflexivity.
  - intros H. destruct (IH H) as [H1 H2]. split.
    + rewrite H1. apply Permutation_swap.
    + rewrite H2 at 1. apply Permutation_swap.
Qed.

Lemma delete_first_other (id : string) (l : list User) (v : User) :
  _id v <> id -> v ∈ delete_first id l <-> v ∈ l.
Proof.
  intros Hv. induction l as [|x l IH]; csimpl; [reflexivity|].
  destruct (bool_decide_reflect (_id x = id)) as [E|E].
  - rewrite elem_of_cons. split; [by right | intros [->|H]; [contradiction | exact H]].
  - rewrite !elem_of_cons, IH. reflexivity.
Qed.

Lemma delete_first_unique (id : string) (l : list User) :
  NoDup (_id <$> l) -> id ∉ _id <$> delete_first id l.
Proof.
  induction l as [|x l IH]; csimpl; [intros _; apply not_elem_of_nil|].
  rewrite NoDup_cons. intros [Hx Hl].
  destruct (bool_decide_reflect (_id x = id)) as [E|E].
  - by rewrite <- E.
  - csimpl. rewrite not_elem_of_cons. split; [congruence | by apply IH].
Qed.

Lemma delete_first_missing (id : string) (l : list User) :
  id ∉ _id <$> l -> delete_first id l = l.
Proof.
  induction l as [|x l IH]; csimpl; [reflexivity|].
  rewrite not_elem_of_cons. intros [Hx Hl].
  rewrite bool_decide_eq_false_2 by congruence. by rewrite IH.
Qed.

Lemma with_db_same (w : World) (c : bool) :
  connected (db w) = c ->
  with_db w {| users := users (db w); connected := c |} = w.
Proof. destruct w as [[us c'] n s i]. simpl. by intros ->. Qed.

End Collection.

(** ** The routes on one account *)

Section AccountRoutes.
Context `{P : Platform}.
Import UserModel UsersAccount.

Lemma apply_update_nothing (u : User) :
  apply_update {| up_email := None; up_username := None; up_mobile := None;
                  up_role := None; up_passwordHash := None |} u = u.
Proof. destruct u. reflexivity. Qed.

(** The shape of every result of [PUT /users/:id]. *)
Lemma update_cases (id : string) (w : World) (req : Request) :
  (exists o upd oid u,
     update_object w req = Ok o /\ cast_update o = Ok upd
     /\ castObjectId (JStr id) = Some oid /\ connected (db w) = true
     /\ List.find (fun u => bool_decide (_id u = oid)) (users (db w)) = Some u
     /\ (is_Some (up_email upd) ->
         email (apply_update upd u) ∉ email <$> delete_first oid (users (db w)))
     /\ update id w req
        = (json_with [] 200 (JObj [("user", account_view (apply_update upd u))]),
           with_db w {| users := replace_first oid (apply_update upd) (users (db w));
                        connected := true |}))
  \/ (status (update id w req).1 ∈ [404; 500] /\ (update id w req).2 = w).
Proof.
  unfold update, findByIdAndUpdate.
  destruct (update_object w req) as [o|err] eqn:Ho;
    cbn [bind try_catch fst snd status json_with].
  2: { right. split; [apply list_elem_of_further, list_elem_of_here | reflexivity]. }
  destruct (connected (db w));
    cbn [bind try_catch fst snd status json_with].
  2: { right. split; [apply list_elem_of_further, list_elem_of_here | reflexivity]. }
  destruct (castObjectId (JStr id)) as [oid|];
    cbn [bind try_catch fst snd status json_with].
  2: { right. split; [apply list_elem_of_further, list_elem_of_here | reflexivity]. }
  destruct (cast_update o) as [upd|err] eqn:Hcast;
    cbn [bind try_catch fst snd status json_with].
  2: { right. split; [apply list_elem_of_further, list_elem_of_here | reflexivity]. }
  destruct (List.find _ (users (db w))) as [u|] eqn:Hf;
    cbn [bind try_catch fst snd status json_with].
  2: { right. split; [apply list_elem_of_here | reflexivity]. }
  destruct (bool_decide_reflect (is_Some (up_email upd))) as [Hsome|Hsome];
    cbn [andb].
  - destruct (bool_decide_reflect
                (email (apply_update upd u)
                   ∈ email <$> delete_first oid (users (db w)))) as [Hin|Hin];
      cbn [bind try_catch fst snd status json_with].
    + right. split; [apply list_elem_of_further, list_elem_of_here | reflexivity].
    + left. exists o, upd, oid, u.
      split_and!; try reflexivity; try assumption. intros _. exact Hin.
  - cbn [bind try_catch fst snd]. left. exists o, upd, oid, u.
    split_and!; try reflexivity; try assumption. intros Hs. contradiction.
Qed.

(** A body that names none of email, username, mobile, role, password
    gives the empty update. *)
Lemma update_object_nothing (w : World) (req : Request) :
  truthy_opt (reqBody req !! "email") = false ->
  truthy_opt (reqBody req !! "username") = false ->
  truthy_opt (reqBody req !! "mobile") = false ->
  truthy_opt (reqBody req !! "role") = false ->
  truthy_opt (reqBody req !! "password") = false ->
  update_object w req
  = Ok {| uo_email := None; uo_username := None; uo_mobile := None;
          uo_role := None; uo_passwordHash := None |}.
Proof.
  intros He Hu Hm Hr Hp. unfold update_object. by rewrite He, Hu, Hm, Hr, Hp.
Qed.

(** X11. [PUT /users/:id] answers 500 and leaves the store as it is
    when the id does not cast to an ObjectId; for an id that casts to
    one no account has, and a body whose values hash and cast, it
    answers 404 and leaves the store as it is; with a body that names
    none of email, username, mobile, role, password and the id of an
    account it answers with the account and leaves the store as it
    is. *)
Theorem update_unknown_or_empty (id : string) (w : World) (req : Request) :
  (castObjectId (JStr id) = None ->
   update id w req = (json_with [] 500 (error_body "Server error"), w))
  /\ (forall o upd oid,
        update_object w req = Ok o -> cast_update o = Ok upd ->
        connected (db w) = true -> castObjectId (JStr id) = Some oid ->
        oid ∉ _id <$> users (db w) ->
        update id w req = (json_with [] 404 (error_body "Not found"), w))
  /\ (forall oid u,
        connected (db w) = true -> castObjectId (JStr id) = Some oid ->
        List.find (fun u => bool_decide (_id u = oid)) (users (db w)) = Some u ->
        truthy_opt (reqBody req !! "email") = false ->
        truthy_opt (reqBody req !! "username") = false ->
        truthy_opt (reqBody req !! "mobile") = false ->
        truthy_opt (reqBody req !! "role") = false ->
        truthy_opt (reqBody req !! "password") = false ->
        update id w req
        = (json_with [] 200 (JObj [("user", account_view u)]), w)).
Proof.
  repeat apply conj.
  - intros Hid. unfold update, findByIdAndUpdate. rewrite Hid.
    destruct (update_object w req) as [o|err]; cbn [bind try_catch];
      [|reflexivity].
    destruct (connected (db w)); reflexivity.
  - intros o upd oid Ho Hcast Hc Hid Hmiss. apply find_id_None in Hmiss.
    unfold update, findByIdAndUpdate. rewrite Ho. cbn [bind].
    rewrite Hc, Hid, Hcast. cbn [bind]. rewrite Hmiss. reflexivity.
  - intros oid u Hc Hid Hf He Hu Hm Hr Hp.
    unfold update, findByIdAndUpdate.
    rewrite (update_object_nothing w req He Hu Hm Hr Hp). cbn [bind].
    rewrite Hid, Hf.
    destruct (connected (db w)) eqn:Hc'; [|discriminate].
    cbn [cast_update cast_value uo_email uo_username uo_mobile uo_role
         uo_passwordHash bind up_email].
    rewrite apply_update_nothing.
    rewrite (replace_first_fixed oid _ _ apply_update_nothing).
    cbn [bool_decide andb]. simpl. by rewrite (with_db_same w true Hc').
Qed.

(** X12. Whatever [PUT /users/:id] is given: the accounts keep their ids,
    order, company and creation time; an account with another id than
    the one the request's id casts to is untouched; unless the answer is 200 the world is as before; and
    emails that were unique stay unique. *)
Theorem update_keeps (id : string) (w : World) (req : Request) :
  let w' := (update id w req).2 in
  _id <$> users (db w') = _id <$> users (db w)
  /\ company <$> users (db w') = company <$> users (db w)
  /\ createdAt <$> users (db w') = createdAt <$> users (db w)
  /\ (forall v, castObjectId (JStr id) <> Some (_id v) ->
      v ∈ users (db w') <-> v ∈ users (db w))
  /\ (status (update id w req).1 <> 200 -> w' = w)
  /\ (NoDup (email <$> users (db w)) -> NoDup (email <$> users (db w'))).
Proof.
  intros w'. subst w'.
  assert (Hfield : forall (B : Type) (g : User -> B) oid f l,
            (forall u, g (f u) = g u) ->
            g <$> replace_first oid f l = g <$> l).
  { intros B g oid f l Hg. induction l as [|v l IH]; csimpl; [reflexivity|].
    destruct (bool_decide (_id v = oid)); csimpl; [by rewrite Hg | by rewrite IH]. }
  destruct (update_cases id w req)
    as [(o & upd & oid & u & _ & _ & Hid & Hc & Hf & Hfresh & ->) | [Hst ->]];
    cbn [fst snd db with_db users status json_with].
  - repeat apply conj.
    + by apply Hfield.
    + by apply Hfield.
    + by apply Hfield.
    + intros v Hv. apply replace_first_other; [reflexivity|].
      intros E. apply Hv. by rewrite Hid, E.
    + intros H. by destruct H.
    + intros Hnd.
      destruct (replace_first_perm oid (apply_update upd) _ u Hf) as [Hnew Hold].
      rewrite Hnew. rewrite Hold in Hnd. rewrite fmap_cons in Hnd |- *.
      apply NoDup_cons in Hnd as [Hu Hrest]. apply NoDup_cons.
      split; [|exact Hrest].
      destruct (up_email upd) as [e|] eqn:He.
      * apply Hfresh. eauto.
      * replace (email (apply_update upd u)) with (email u); [exact Hu|].
        unfold apply_update. by rewrite He.
  - repeat split; auto.
Qed.

(** X13. [PUT /users/:id] with a body that gives only a role, a string,
    stores that role as it is, whether or not it is one of the
    schema's [enum]: the store afterwards is [update_role] of the
    store before, and the answer shows the account with the new role
    and everything else as it was. *)
Theorem update_role_unchecked (id oid r : string) (w : World) (req : Request)
        (u : User) :
  connected (db w) = true -> castObjectId (JStr id) = Some oid ->
  NoDup (_id <$> users (db w)) ->
  List.find (fun u => bool_decide (_id u = oid)) (users (db w)) = Some u ->
  reqBody req !! "role" = Some (JStr r) -> nonempty r = true ->
  truthy_opt (reqBody req !! "email") = false ->
  truthy_opt (reqBody req !! "username") = false ->
  truthy_opt (reqBody req !! "mobile") = false ->
  truthy_opt (reqBody req !! "password") = false ->
  (update id w req).2 = with_db w (update_role oid r (db w))
  /\ status (update id w req).1 = 200
  /\ exists u',
      prop (body (update id w req).1) "user" = Some (account_view u')
      /\ role u' = r
      /\ _id u' = _id u /\ email u' = email u /\ username u' = username u
      /\ passwordHash u' = passwordHash u /\ mobile u' = mobile u
      /\ company u' = company u /\ createdAt u' = createdAt u
      /\ List.find (fun u => bool_decide (_id u = oid))
           (users (db (update id w req).2)) = Some u'.
Proof.
  intros Hc Hid Hnd Hf Hr Hnr He Hu Hm Hp.
  set (upd := {| up_email := None; up_username := None; up_mobile := None;
                 up_role := Some r; up_passwordHash := None |}).
  assert (Hobj : update_object w req
                 = Ok {| uo_email := None; uo_username := None; uo_mobile := None;
                         uo_role := Some (JStr r); uo_passwordHash := None |}).
  { unfold update_object. rewrite He, Hu, Hm, Hp, Hr. cbn [truthy_opt truthy].
    by rewrite Hnr. }
  assert (Hupdate : update id w req
            = (json_with [] 200 (JObj [("user", account_view (apply_update upd u))]),
               with_db w {| users := replace_first oid (apply_update upd)
                                       (users (db w));
                            connected := true |})).
  { unfold update, findByIdAndUpdate. rewrite Hobj. cbn [bind].
    rewrite Hc, Hid, Hf. reflexivity. }
  rewrite Hupdate. cbn [fst snd status body json_with db with_db users].
  repeat apply conj.
  - unfold update_role. rewrite Hc.
    rewrite (replace_first_unique oid _ _ Hnd). reflexivity.
  - reflexivity.
  - exists (apply_update upd u). repeat split.
    by apply replace_first_found.
Qed.

(** X14. After [PUT /users/:id] set a password, a login with that
    password for the account succeeds, provided [bcrypt.compare]
    accepts the hash [bcrypt.hash] made of it and [res.cookie] takes
    the configured maximal age. *)
Theorem update_password_then_login (id : string) (w : World)
        (req lreq : Request) (u' : User) (e : Json) (p : string) :
  NoDup (_id <$> users (db w)) ->
  reqBody req !! "password" = Some (JStr p) -> nonempty p = true ->
  status (update id w req).1 = 200 ->
  bcrypt_compare p (bcrypt_hash p (nextSalt w)) = true ->
  max_age_taken = true ->
  reqBody lreq !! "email" = Some e -> truthy e = true ->
  reqBody lreq !! "password" = Some (JStr p) ->
  findOne_email (db (update id w req).2) e = Ok (Some u') ->
  castObjectId (JStr id) = Some (_id u') ->
  status (AuthRoutes.login (update id w req).2 lreq) = 200
  /\ cookieOps (AuthRoutes.login (update id w req).2 lreq)
     = [SetCookie COOKIE_NAME
          (jwt_sign (claims_of u') SESSION_SECRET (now w))
          AuthRoutes.cookieOptions].
Proof.
  intros Hnd Hp Hnp H200 Hlaw Hmax He Hne Hlp Hfind Hid.
  assert (Hin : exists upd, up_passwordHash upd = Some (bcrypt_hash p (nextSalt w))
                  /\ u' ∈ replace_first (_id u') (apply_update upd) (users (db w))
                  /\ now (update id w req).2 = now w).
  { destruct (update_cases id w req)
      as [(o & upd & oid & u & Ho & Hcast & Hoid & _ & _ & _ & Heq) | [Hst _]].
    2: { rewrite H200 in Hst. rewrite !elem_of_cons in Hst.
         destruct Hst as [|[|Hst]]; try discriminate. by apply elem_of_nil in Hst. }
    rewrite Hid in Hoid. injection Hoid as <-.
    exists upd. rewrite Heq in Hfind |- *. cbn [snd db with_db now] in Hfind |- *.
    repeat split.
    - unfold update_object in Ho. rewrite Hp in Ho.
      cbn [truthy_opt truthy default from_option bcrypt_hash_js bind] in Ho.
      rewrite Hnp in Ho. cbn [bind] in Ho. injection Ho as <-.
      unfold cast_update in Hcast.
      destruct (cast_value _) as [a1|]; [|discriminate]. cbn [bind] in Hcast.
      destruct (cast_value _) as [a2|]; [|discriminate]. cbn [bind] in Hcast.
      destruct (cast_value _) as [a3|]; [|discriminate]. cbn [bind] in Hcast.
      destruct (cast_value _) as [a4|]; [|discriminate]. cbn [bind] in Hcast.
      by injection Hcast as <-.
    - unfold findOne_email in Hfind. cbn [connected users] in Hfind.
      assert (Hsome : exists f, List.find f
                 (replace_first (_id u') (apply_update upd) (users (db w)))
               = Some u').
      { destruct e; try (destruct (filterString _); [|discriminate]);
          injection Hfind as Hfind; eauto. }
      destruct Hsome as [f Hsome]. apply find_some in Hsome as [Hsome _].
      by apply list_elem_of_In. }
  destruct Hin as (upd & Hhash & Hin & Hnow).
  assert (Hpw : passwordHash u' = bcrypt_hash p (nextSalt w)).
  { remember (_id u') as oid eqn:Hoid.
    rewrite (replace_first_unique oid _ _ Hnd) in Hin.
    apply list_elem_of_fmap_1 in Hin as (v & -> & Hv).
    destruct (bool_decide_reflect (_id v = oid)) as [E|E]; [|congruence].
    unfold apply_update. cbn [passwordHash]. by rewrite Hhash. }
  rewrite (login_valid _ lreq e p u' He Hne Hlp Hnp Hfind);
    [rewrite Hnow; by split | by rewrite Hpw | exact Hmax].
Qed.

(** X15. [DELETE /users/:id]: 500 and no change for an id that does not
    cast to an ObjectId; 404 and no change for one that casts to an
    ObjectId no account has; otherwise [{ok: true}], the account is
    gone and every account with another id is still there; with
    unique ids a second delete of the same id gets 404. *)
Theorem remove_account (id : string) (w : World) (req : Request) :
  let w' := (remove id w req).2 in
  (castObjectId (JStr id) = None ->
   remove id w req = (json_with [] 500 (error_body "Server error"), w))
  /\ (forall oid, connected (db w) = true ->
      castObjectId (JStr id) = Some oid ->
      oid ∉ _id <$> users (db w) ->
      remove id w req = (json_with [] 404 (error_body "Not found"), w))
  /\ (forall oid, connected (db w) = true ->
      castObjectId (JStr id) = Some oid ->
      oid ∈ _id <$> users (db w) ->
      (remove id w req).1 = json_with [] 200 (JObj [("ok", JBool true)])
      /\ users (db w') = delete_first oid (users (db w)))
  /\ (forall v, castObjectId (JStr id) <> Some (_id v) ->
      v ∈ users (db w') <-> v ∈ users (db w))
  /\ (forall oid, connected (db w) = true ->
      castObjectId (JStr id) = Some oid ->
      NoDup (_id <$> users (db w)) ->
      forall req', remove id w' req'
                   = (json_with [] 404 (error_body "Not found"), w')).
Proof.
  intros w'. subst w'.
  assert (Hmiss : forall oid w0 r0, connected (db w0) = true ->
            castObjectId (JStr id) = Some oid -> oid ∉ _id <$> users (db w0) ->
            remove id w0 r0 = (json_with [] 404 (error_body "Not found"), w0)).
  { intros oid w0 r0 Hc Hid Hmiss. apply find_id_None in Hmiss.
    unfold remove, findByIdAndDelete. rewrite Hc, Hid, Hmiss. reflexivity. }
  repeat apply conj.
  - intros Hid. unfold remove, findByIdAndDelete. rewrite Hid.
    destruct (connected (db w)); reflexivity.
  - intros oid. apply Hmiss.
  - intros oid Hc Hid Hin. unfold remove, findByIdAndDelete. rewrite Hc, Hid.
    destruct (List.find _ (users (db w))) as [u|] eqn:Hf.
    + split; reflexivity.
    + apply find_id_None in Hf. contradiction.
  - intros v Hv. unfold remove, findByIdAndDelete.
    destruct (connected (db w)); [|reflexivity].
    destruct (castObjectId (JStr id)) as [oid|]; [|reflexivity].
    destruct (List.find _ (users (db w))) as [u|] eqn:Hf; [|reflexivity].
    cbn [bind try_catch fst snd db with_db users]. apply delete_first_other.
    intros E. apply Hv. by rewrite E.
  - intros oid Hc Hid Hnd req'. unfold remove at 2 3, findByIdAndDelete.
    rewrite Hc, Hid.
    destruct (List.find _ (users (db w))) as [u|] eqn:Hf.
    + cbn [bind try_catch fst snd].
      apply (Hmiss oid); [reflexivity | exact Hid |].
      cbn [db with_db users]. by apply delete_first_unique.
    + cbn [bind try_catch fst snd]. apply (Hmiss oid); [exact Hc | exact Hid |].
      by apply find_id_None.
Qed.

(** X16. Once [DELETE /users/:id] removed an account, a request with a
    still valid token of that account is refused by the gate of
    middleware/auth.js with "Session user not found" and told to drop
    the cookie; the gates of the users router, which do not read the
    store, answer as they did before. *)
Theorem remove_then_requireAuth (id : string) (w : World) (req req' : Request)
        (t : string) (payload : Json) :
  NoDup (_id <$> users (db w)) ->
  status (remove id w req).1 = 200 ->
  cookie_get_guarded req' COOKIE_NAME = Some t -> nonempty t = true ->
  jwt_verify t SESSION_SECRET (now w) = Some payload ->
  prop payload "uid" = Some (JStr id) -> nonempty id = true ->
  Middleware.requireAuth (remove id w req).2 req'
  = invalid_session "Session user not found"
  /\ chain App.users_gates (remove id w req).2 req'
     = chain App.users_gates w req'.
Proof.
  intros Hnd H200 Ht Hnt Hv Huid Hnid.
  unfold remove, findByIdAndDelete in *.
  destruct (connected (db w)) eqn:Hc; [|discriminate].
  destruct (castObjectId (JStr id)) as [oid|] eqn:Hid; [|discriminate].
  destruct (List.find _ (users (db w))) as [u|] eqn:Hf; [|discriminate].
  cbn [bind try_catch fst snd] in *. split; [|reflexivity].
  unfold Middleware.requireAuth.
  match goal with
  | |- try_catch (Middleware.requireAuth_try ?w1 _) _ = _ =>
      rewrite (requireAuth_try_resolve w1 req' t payload Ht Hnt Hv)
        by (rewrite Huid; exact Hnid)
  end.
  rewrite Huid. unfold findById. cbn [db with_db connected users].
  rewrite Hid.
  pose proof (delete_first_unique oid _ Hnd) as Hgone.
  apply find_id_None in Hgone. rewrite Hgone. reflexivity.
Qed.

End AccountRoutes.

(** ** What the responses show, and what creating an account does *)

Section Bodies.
Context `{P : Platform}.
Import UserModel UsersAccount.

Lemma no_secret_error (msg : string) : no_secret_key (error_body msg).
Proof. split; not_among. Qed.

Lemma no_secret_user (v : Json) :
  no_secret_key v -> no_secret_key (JObj [("user", v)]).
Proof.
  intros [H1 H2]. unfold no_secret_key.
  change (keys (JObj [("user", v)])) with ("user" :: keys v ++ []).
  rewrite app_nil_r, !not_elem_of_cons.
  repeat split; try discriminate; assumption.
Qed.

Lemma no_secret_lean (u : User) : no_secret_key (lean_without_hash u).
Proof.
  split; rewrite lean_keys; destruct (mobile u), (__v u); not_among.
Qed.

Lemma no_secret_account (u : User) : no_secret_key (account_view u).
Proof. unfold account_view. split; destruct (mobile u); not_among. Qed.

(** X9. [POST /users] never answers 201 and never changes the store: like
    signup, it saves a document without the [company] the schema
    requires. *)
Theorem create_never_creates (w : World) (req : Request) :
  status (UsersRoutes.create w req).1 <> 201
  /\ (UsersRoutes.create w req).2 = w
  /\ (truthy_opt (reqBody req !! "email") = true ->
      truthy_opt (reqBody req !! "username") = true ->
      truthy_opt (reqBody req !! "password") = true ->
      findOne_email (db w) (default JNull (reqBody req !! "email")) = Ok None ->
      UsersRoutes.create w req
      = (json_with [] 500 (error_body "Server error"), w)).
Proof.
  unfold UsersRoutes.create. repeat apply conj.
  - destruct (negb _ || negb _ || negb _); simpl; [discriminate|].
    destruct (findOne_email _ _) as [existing|e]; simpl; [|discriminate].
    destruct (bool_decide (is_Some existing)); simpl; [discriminate|].
    destruct (bcrypt_hash_js _ _) as [hash|err]; cbn [bind try_catch];
      [|discriminate].
    destruct (save_needs_company (UsersRoutes.create_doc w req hash) (db w)
                eq_refl) as [err Herr].
    rewrite Herr. discriminate.
  - destruct (negb _ || negb _ || negb _); simpl; [reflexivity|].
    destruct (findOne_email _ _) as [existing|e]; simpl; [|reflexivity].
    destruct (bool_decide (is_Some existing)); simpl; [reflexivity|].
    destruct (bcrypt_hash_js _ _) as [hash|err]; cbn [bind try_catch];
      [|reflexivity].
    destruct (save_needs_company (UsersRoutes.create_doc w req hash) (db w)
                eq_refl) as [err Herr].
    rewrite Herr. reflexivity.
  - intros He Hu Hp Hf. rewrite He, Hu, Hp. cbn [negb orb]. rewrite Hf.
    cbn [bind]. rewrite bool_decide_eq_false_2 by (intros [? [=]]).
    destruct (bcrypt_hash_js _ _) as [hash|err]; cbn [bind try_catch];
      [|reflexivity].
    destruct (save_needs_company (UsersRoutes.create_doc w req hash) (db w)
                eq_refl) as [err Herr].
    rewrite Herr. reflexivity.
Qed.

(** X10. No body that signup, login, [GET /auth/me] or a route of the users
    router sends has a [passwordHash] or a [password] key. *)
Theorem bodies_without_hash (w : World) (req : Request) (id : string) :
  Forall no_secret_key
    [body (AuthRoutes.signup w req).1;
     body (AuthRoutes.login w req);
     body (AuthRoutes.me w req);
     body (UsersRoutes.create w req).1;
     body (get id w req);
     body (update id w req).1;
     body (remove id w req).1].
Proof.
  repeat apply Forall_cons_2; [| | | | | | | apply Forall_nil_2].
  - unfold AuthRoutes.signup.
    destruct (negb _ || negb _ || negb _ || negb _); simpl;
      [apply no_secret_error|].
    destruct (findOne_email _ _) as [existing|e]; simpl; [|apply no_secret_error].
    destruct (bool_decide (is_Some existing)); simpl; [apply no_secret_error|].
    destruct (bcrypt_hash_js _ _) as [hash|err]; cbn [bind try_catch];
      [|apply no_secret_error].
    destruct (save_needs_company (AuthRoutes.signup_doc w req hash) (db w)
                eq_refl) as [err Herr].
    rewrite Herr. apply no_secret_error.
  - unfold AuthRoutes.login.
    destruct (negb _ || negb _); simpl; [apply no_secret_error|].
    destruct (findOne_email _ _) as [[u|]|e]; simpl; try apply no_secret_error.
    destruct (bcrypt_compare_js _ _) as [[|]|e]; cbn [bind try_catch];
      try apply no_secret_error.
    destruct (res_cookie _ _ _) as [c|e]; cbn [bind try_catch];
      [|apply no_secret_error].
    split; not_among.
  - unfold AuthRoutes.me, cookie_get.
    destruct (cookies req) as [c|]; simpl; [|split; not_among].
    destruct (truthy_str (c !! COOKIE_NAME)); simpl; [|split; not_among].
    destruct (jwt_verify _ _ _) as [payload|]; simpl; [|split; not_among].
    destruct (findById (db w) (prop payload "uid")) as [[u|]|e];
      cbn [bind try_catch body json_with]; try (split; not_among).
    apply no_secret_user, no_secret_lean.
  - unfold UsersRoutes.create.
    destruct (negb _ || negb _ || negb _); simpl; [apply no_secret_error|].
    destruct (findOne_email _ _) as [existing|e]; simpl; [|apply no_secret_error].
    destruct (bool_decide (is_Some existing)); simpl; [apply no_secret_error|].
    destruct (bcrypt_hash_js _ _) as [hash|err]; cbn [bind try_catch];
      [|apply no_secret_error].
    destruct (save_needs_company (UsersRoutes.create_doc w req hash) (db w)
                eq_refl) as [err Herr].
    rewrite Herr. apply no_secret_error.
  - unfold get.
    destruct (findById _ _) as [[u|]|e]; cbn [bind try_catch body json_with];
      try apply no_secret_error.
    apply no_secret_user, no_secret_account.
  - unfold update.
    destruct (update_object w req) as [o|e]; cbn [bind try_catch];
      [|apply no_secret_error].
    destruct (findByIdAndUpdate _ _ _) as [[[u|] s]|e];
      cbn [bind try_catch fst body json_with];
      try apply no_secret_error.
    apply no_secret_user, no_secret_account.
  - unfold remove.
    destruct (findByIdAndDelete _ _) as [[[u|] s]|e];
      cbn [bind try_catch fst body json_with]; try apply no_secret_error.
    split; not_among.
Qed.

End Bodies.

(** ** The default company *)

Section DefaultCompanyProperties.
Context `{P : Platform}.
Variable upper_snake : string -> string.
Import Seed.

Lemma find_name_Some (name : string) (l : list Company) (c : Company) :
  List.find (fun c => bool_decide (c_name c = name)) l = Some c ->
  c_name c = name /\ c ∈ l.
Proof.
  induction l as [|x l IH]; simpl; [discriminate|].
  destruct (bool_decide_reflect (c_name x = name)) as [E|E].
  - intros [= <-]. split; [exact E | apply list_elem_of_here].
  - intros H. destruct (IH H). split; [assumption | by apply list_elem_of_further].
Qed.

Lemma find_name_snoc (name : string) (l : list Company) (c : Company) :
  List.find (fun c => bool_decide (c_name c = name)) l = None ->
  c_name c = name ->
  List.find (fun c => bool_decide (c_name c = name)) (l ++ [c]) = Some c.
Proof.
  intros Hnone Hc. induction l as [|x l IH]; simpl in *.
  - by rewrite bool_decide_eq_true_2.
  - destruct (bool_decide (c_name x = name)); [discriminate | by apply IH].
Qed.

(** X17. [ensureDefaultCompany] is idempotent: once it returned a company,
    running it again (with whatever fresh id and clock) returns the
    same company and leaves the collection alone. The company it
    returns has the default name and is in the collection, which has
    grown by at most one document at its end. *)
Theorem ensureDefaultCompany_idempotent (s s' : CompanyDb) (id id' : string)
        (now now' : Z) (c : Company) :
  ensureDefaultCompany upper_snake s id now = Ok (c, s') ->
  ensureDefaultCompany upper_snake s' id' now' = Ok (c, s')
  /\ c_name c = DEFAULT_COMPANY_NAME
  /\ c ∈ companies s'
  /\ (companies s' = companies s \/ companies s' = companies s ++ [c]).
Proof.
  unfold ensureDefaultCompany, findOne_name.
  destruct (c_connected s) eqn:Hc; [|discriminate].
  destruct (List.find _ (companies s)) as [c0|] eqn:Hf; cbn [bind].
  - intros [= -> ->]. rewrite Hc, Hf. cbn [bind].
    destruct (find_name_Some _ _ _ Hf) as [Hname Hin]. auto.
  - unfold create. rewrite Hc.
    destruct (negb (nonempty DEFAULT_COMPANY_NAME)); [discriminate|].
    destruct (_ || _); [discriminate|].
    intros [= <- <-]. cbn [c_connected companies c_name].
    match goal with
    | |- context [companies s ++ [?c1]] =>
        rewrite (find_name_snoc DEFAULT_COMPANY_NAME (companies s) c1 Hf eq_refl)
    end.
    cbn [bind].
    repeat split; auto. apply elem_of_app. right. apply list_elem_of_here.
Qed.

End DefaultCompanyProperties.

(** ** The CORS allow-list *)

Section CorsProperties.
Context `{P : Platform}.
Variable trim : string -> string.
Import Cors.

(** X18. A request without an [Origin] passes whatever the configuration;
    one with an [Origin] passes exactly when the origin is one of the
    trimmed, non-empty pieces of [FRONTEND_ORIGINS], and is otherwise
    refused with "CORS blocked: " and the origin. With
    [FRONTEND_ORIGINS] unset or empty the list is empty, so every
    request that names an origin is refused. *)
Theorem cors_policy (origin : string) :
  origin_allowed trim None = Ok true
  /\ (nonempty origin = true ->
      (origin_allowed trim (Some origin) = Ok true <->
       exists piece,
         piece ∈ split_comma (or_default (env !! "FRONTEND_ORIGINS") "")
         /\ trim piece = origin)
      /\ (origin_allowed trim (Some origin) <> Ok true ->
          origin_allowed trim (Some origin)
          = Throw ("CORS blocked: " +:+ origin)))
  /\ (truthy_str (env !! "FRONTEND_ORIGINS") = false -> trim "" = "" ->
      allowedOrigins trim = []
      /\ (nonempty origin = true ->
          origin_allowed trim (Some origin)
          = Throw ("CORS blocked: " +:+ origin))).
Proof.
  assert (Hin : forall o, o ∈ allowedOrigins trim <->
            nonempty o = true /\ exists piece,
              piece ∈ split_comma (or_default (env !! "FRONTEND_ORIGINS") "")
              /\ trim piece = o).
  { intros o. unfold allowedOrigins.
    rewrite list_elem_of_In, filter_In, <- list_elem_of_In. split.
    - intros [Hm Hne]. split; [exact Hne|].
      apply list_elem_of_fmap_1 in Hm as (piece & -> & Hp). eauto.
    - intros [Hne (piece & Hp & <-)]. split; [|exact Hne].
      by apply list_elem_of_fmap_2. }
  repeat apply conj.
  - reflexivity.
  - intros Hne. unfold origin_allowed. cbn [truthy_str default from_option id].
    rewrite Hne. cbn [negb].
    destruct (bool_decide_reflect (origin ∈ allowedOrigins trim)) as [Ho|Ho].
    + split; [|intros H; by destruct H]. split; [|reflexivity].
      intros _. by apply Hin in Ho as [_ ?].
    + split; [|reflexivity]. split; [discriminate|].
      intros Hp. exfalso. apply Ho, Hin. by split.
  - intros Hunset Htrim.
    assert (Hnil : allowedOrigins trim = []).
    { unfold allowedOrigins.
      replace (or_default (env !! "FRONTEND_ORIGINS") "") with "".
      - simpl. rewrite Htrim. reflexivity.
      - unfold or_default. destruct (env !! "FRONTEND_ORIGINS") as [v|];
          [|reflexivity].
        simpl in Hunset. by rewrite Hunset. }
    split; [exact Hnil|]. intros Hne. unfold origin_allowed.
    cbn [truthy_str default from_option id]. rewrite Hne, Hnil. reflexivity.
Qed.

End CorsProperties.

(* ===================================================================== *)
(** * The further properties on concrete requests *)
(* ===================================================================== *)

Section MoreRuns.
Import UserModel UsersAccount Demo Scenario.
#[local] Existing Instance platform.

Lemma unique_ids : NoDup (_id <$> users (db world)).
Proof.
  change (NoDup ["64f1a2b3c4d5e6f708192a00"; "64f1a2b3c4d5e6f708192a01"]).
  repeat (apply NoDup_cons_2; [not_among|]). apply NoDup_nil_2.
Defined.

Lemma unique_emails : NoDup (email <$> users (db world)).
Proof.
  change (NoDup ["root@x.com"; "a@x.com"]).
  repeat (apply NoDup_cons_2; [not_among|]). apply NoDup_nil_2.
Defined.

(** Alice once [PUT /users/:id] gave her the role "superuser". *)
Lemma alice_superuser :
  apply_update {| up_email := None; up_username := None; up_mobile := None;
                  up_role := Some "superuser"; up_passwordHash := None |} alice
  = {| _id := alice_id; email := "a@x.com"; username := "alice";
       passwordHash := "$2a$10$salt$pw123"; mobile := Some "555";
       role := "superuser"; company := company_id; createdAt := 0;
       __v := Some 0 |}.
Proof. reflexivity. Qed.

(** With a maximal age that is no number, a login with the right
    credentials ends in the handler's [catch]: 500 and no cookie. *)
Lemma login_bad_max_age :
  AuthRoutes.login (P := bad_max_age) world login_alice
  = json_with [] 500 (error_body "Server error").
Proof. vm_compute. reflexivity. Qed.

(** An id that is no ObjectId makes the routes on one account answer
    500. *)
Lemma malformed_id_500 :
  status (get malformed_id world put_nothing) = 500
  /\ status (update malformed_id world put_role).1 = 500
  /\ status (remove malformed_id world put_nothing).1 = 500.
Proof. repeat split. Qed.

Lemma users_gates_use_token_claim_witness :
  chain App.users_gates world_down (with_cookie "tok.u0")
  = Next (set_user (with_cookie "tok.u0") root_claims).
Proof.
  apply (users_gates_use_token_claim world_down (with_cookie "tok.u0")
           {[ "session" := "tok.u0" ]} "tok.u0" root_claims);
    vm_compute; reflexivity.
Defined.

Lemma products_admin_gates_use_store_role_witness :
  chain App.products_admin_gates world_promoted (with_cookie "tok.u1")
  = Next (set_user (with_cookie "tok.u1") (lean_without_hash alice_admin)).
Proof.
  apply (products_admin_gates_use_store_role world_promoted (with_cookie "tok.u1")
           "tok.u1" alice_claims alice_admin);
    vm_compute; reflexivity.
Defined.

Lemma login_cookie_iff_valid_witness :
  status (AuthRoutes.login world login_alice) = 200
  /\ cookieOps (AuthRoutes.login world login_alice) <> []
  /\ status (AuthRoutes.login world login_wrong_password) <> 200.
Proof.
  destruct (login_cookie_iff_valid world login_alice) as (_ & Hvalid & Hcookie).
  destruct (login_cookie_iff_valid world login_wrong_password) as (_ & Hwrong & _).
  assert (H200 : status (AuthRoutes.login world login_alice) = 200).
  { apply Hvalid. exists (JStr "a@x.com"), "pw123", alice.
    repeat split; vm_compute; reflexivity. }
  split; [exact H200|]. split; [by apply Hcookie|].
  intros H. apply Hwrong in H as (e & p & u & He & _ & Hp & _ & Hf & Hc & _).
  vm_compute in He, Hp. injection He as <-. injection Hp as <-.
  vm_compute in Hf. injection Hf as <-. vm_compute in Hc. discriminate Hc.
Defined.

Lemma login_then_requireAuth_witness :
  let req' := from_browser (apply_cookies ∅ (AuthRoutes.login world login_alice)) ∅ in
  Middleware.requireAuth world_promoted req'
  = Next (set_user req' (lean_without_hash alice_admin))
  /\ prop (lean_without_hash alice_admin) "role" = Some (JStr "admin")
  /\ exists next, Middleware.requireAuth world_promoted req' = Next next
      /\ user next = Some (lean_without_hash alice_admin)
      /\ cookies next = cookies req' /\ reqBody next = ∅.
Proof.
  apply (login_then_requireAuth world world_promoted login_alice ∅ ∅
           (JStr "a@x.com") "pw123" alice alice_admin alice_claims);
    vm_compute; reflexivity.
Defined.

Lemma login_then_me_witness :
  AuthRoutes.me world
    (from_browser (apply_cookies ∅ (AuthRoutes.login world login_alice)) ∅)
  = {| status := 200; body := JObj [("user", lean_without_hash alice)];
       cookieOps := [] |}
  /\ "passwordHash" ∉ keys (lean_without_hash alice).
Proof.
  apply (login_then_me world world login_alice ∅ ∅
           (JStr "a@x.com") "pw123" alice alice alice_claims);
    vm_compute; reflexivity.
Defined.

Lemma me_clears_unresolved_witness :
  AuthRoutes.me world (with_cookie "tok.u1")
  = json_with [] 200 (JObj [("user", lean_without_hash alice)])
  /\ AuthRoutes.me world_down (with_cookie "tok.u1")
     = json_with [ClearCookie COOKIE_NAME "/"] 200 (JObj [("user", JNull)]).
Proof.
  destruct (me_clears_unresolved world (with_cookie "tok.u1")
              {[ "session" := "tok.u1" ]} "tok.u1") as (Hfound & _ & _);
    try (vm_compute; reflexivity).
  destruct (me_clears_unresolved world_down (with_cookie "tok.u1")
              {[ "session" := "tok.u1" ]} "tok.u1") as (_ & _ & Hdown);
    try (vm_compute; reflexivity).
  split.
  - apply (Hfound alice_claims alice); vm_compute; reflexivity.
  - apply Hdown. reflexivity.
Defined.

Lemma update_unknown_or_empty_witness :
  update malformed_id world put_role
  = (json_with [] 500 (error_body "Server error"), world)
  /\ update absent_id world put_role
     = (json_with [] 404 (error_body "Not found"), world)
  /\ update alice_id world put_nothing
     = (json_with [] 200 (JObj [("user", account_view alice)]), world).
Proof.
  destruct (update_unknown_or_empty malformed_id world put_role)
    as (Hmalformed & _ & _).
  destruct (update_unknown_or_empty absent_id world put_role)
    as (_ & Habsent & _).
  destruct (update_unknown_or_empty alice_id world put_nothing)
    as (_ & _ & Hnothing).
  split; [|split].
  - apply Hmalformed. reflexivity.
  - apply (Habsent
             {| uo_email := None; uo_username := None; uo_mobile := None;
                uo_role := Some (JStr "superuser"); uo_passwordHash := None |}
             {| up_email := None; up_username := None; up_mobile := None;
                up_role := Some "superuser"; up_passwordHash := None |}
             absent_id);
      try reflexivity.
    change ("64f1a2b3c4d5e6f708192aff"
              ∉ ["64f1a2b3c4d5e6f708192a00"; "64f1a2b3c4d5e6f708192a01"]).
    not_among.
  - apply (Hnothing alice_id alice); vm_compute; reflexivity.
Defined.

Lemma update_keeps_witness :
  NoDup (email <$> users (db (update alice_id world put_role).2))
  /\ _id <$> users (db (update alice_id world put_role).2) = [root_id; alice_id].
Proof.
  destruct (update_keeps alice_id world put_role) as (Hids & _ & _ & _ & _ & Hnd).
  split; [exact (Hnd unique_emails) | exact Hids].
Defined.

Lemma update_role_unchecked_witness :
  (update alice_id_upper world put_role).2
  = with_db world (update_role alice_id "superuser" (db world))
  /\ status (update alice_id_upper world put_role).1 = 200
  /\ exists u',
      prop (body (update alice_id_upper world put_role).1) "user"
      = Some (account_view u')
      /\ role u' = "superuser"
      /\ _id u' = _id alice /\ email u' = email alice
      /\ username u' = username alice
      /\ passwordHash u' = passwordHash alice /\ mobile u' = mobile alice
      /\ company u' = company alice /\ createdAt u' = createdAt alice
      /\ List.find (fun u => bool_decide (_id u = alice_id))
           (users (db (update alice_id_upper world put_role).2)) = Some u'.
Proof.
  apply (update_role_unchecked alice_id_upper alice_id "superuser" world
           put_role alice);
    try (vm_compute; reflexivity).
  exact unique_ids.
Defined.

Lemma update_password_then_login_witness :
  status (AuthRoutes.login (update alice_id world put_password).2
            login_new_password) = 200
  /\ cookieOps (AuthRoutes.login (update alice_id world put_password).2
                  login_new_password)
     = [SetCookie COOKIE_NAME "tok.u1" AuthRoutes.cookieOptions].
Proof.
  set (u' := apply_update
               {| up_email := None; up_username := None; up_mobile := None;
                  up_role := None;
                  up_passwordHash := Some "$2a$10$salt$new-secret" |} alice).
  assert (Hsign : jwt_sign (claims_of u') SESSION_SECRET (now world) = "tok.u1")
    by (vm_compute; reflexivity).
  rewrite <- Hsign.
  apply (update_password_then_login alice_id world put_password
           login_new_password u' (JStr "a@x.com") "new-secret");
    try (vm_compute; reflexivity).
  exact unique_ids.
Defined.

Lemma remove_account_witness :
  remove malformed_id world put_nothing
  = (json_with [] 500 (error_body "Server error"), world)
  /\ remove absent_id world put_nothing
     = (json_with [] 404 (error_body "Not found"), world)
  /\ ((remove alice_id world put_nothing).1
      = json_with [] 200 (JObj [("ok", JBool true)])
      /\ users (db (remove alice_id world put_nothing).2) = [root])
  /\ remove alice_id (remove alice_id world put_nothing).2 put_nothing
     = (json_with [] 404 (error_body "Not found"),
        (remove alice_id world put_nothing).2).
Proof.
  destruct (remove_account malformed_id world put_nothing) as (Hmalformed & _).
  destruct (remove_account absent_id world put_nothing) as (_ & Hmissing & _).
  destruct (remove_account alice_id world put_nothing)
    as (_ & _ & Hgone & _ & Hagain).
  split; [|split; [|split]].
  - apply Hmalformed. reflexivity.
  - apply (Hmissing absent_id); [reflexivity | reflexivity |].
    change ("64f1a2b3c4d5e6f708192aff"
              ∉ ["64f1a2b3c4d5e6f708192a00"; "64f1a2b3c4d5e6f708192a01"]).
    not_among.
  - apply (Hgone alice_id); [reflexivity | reflexivity |].
    change ("64f1a2b3c4d5e6f708192a01"
              ∈ ["64f1a2b3c4d5e6f708192a00"; "64f1a2b3c4d5e6f708192a01"]).
    apply list_elem_of_further, list_elem_of_here.
  - apply (Hagain alice_id); [reflexivity | reflexivity | exact unique_ids].
Defined.

Lemma remove_then_requireAuth_witness :
  Middleware.requireAuth (remove alice_id world put_nothing).2
    (with_cookie "tok.u1")
  = invalid_session "Session user not found"
  /\ chain App.users_gates (remove alice_id world put_nothing).2
       (with_cookie "tok.u1")
     = chain App.users_gates world (with_cookie "tok.u1").
Proof.
  apply (remove_then_requireAuth alice_id world put_nothing (with_cookie "tok.u1")
           "tok.u1" alice_claims);
    try (vm_compute; reflexivity).
  exact unique_ids.
Defined.

Lemma create_never_creates_witness :
  UsersRoutes.create world post_user
  = (json_with [] 500 (error_body "Server error"), world).
Proof.
  apply (proj2 (proj2 (create_never_creates world post_user)));
    vm_compute; reflexivity.
Defined.

Lemma ensureDefaultCompany_idempotent_witness :
  exists c s',
    Seed.ensureDefaultCompany code_of no_companies "c1" 0 = Ok (c, s')
    /\ Seed.c_code c = Some "BHANU_COMPANY"
    /\ Seed.ensureDefaultCompany code_of s' "c2" 5 = Ok (c, s')
    /\ Seed.c_name c = "Bhanu Company"
    /\ Seed.companies s' = [c].
Proof.
  pose (c := {| Seed.c_id := "c1"; Seed.c_name := "Bhanu Company";
                Seed.c_code := Some "BHANU_COMPANY";
                Seed.c_createdAt := 0; Seed.c_updatedAt := 0 |}).
  pose (s' := {| Seed.companies := [c]; Seed.c_connected := true |}).
  assert (Hrun : Seed.ensureDefaultCompany code_of no_companies "c1" 0 = Ok (c, s')).
  { vm_compute. reflexivity. }
  destruct (ensureDefaultCompany_idempotent code_of no_companies s' "c1" "c2" 0 5 c
              Hrun) as (Hagain & Hname & _ & _).
  exists c, s'. split; [exact Hrun|]. split; [reflexivity|].
  split; [exact Hagain|]. split; [exact Hname | reflexivity].
Defined.

Lemma cors_policy_witness :
  Cors.origin_allowed (P := with_origins) trim_nothing (Some "http://b.test")
  = Ok true
  /\ Cors.origin_allowed (P := with_origins) trim_nothing (Some "http://c.test")
     = Throw "CORS blocked: http://c.test"
  /\ Cors.allowedOrigins trim_nothing = []
  /\ Cors.origin_allowed trim_nothing (Some "http://localhost:4000")
     = Throw "CORS blocked: http://localhost:4000".
Proof.
  destruct (cors_policy (P := with_origins) trim_nothing "http://b.test")
    as (_ & Hb & _).
  destruct (cors_policy (P := with_origins) trim_nothing "http://c.test")
    as (_ & Hc & _).
  destruct (cors_policy trim_nothing "http://localhost:4000") as (_ & _ & Hdefault).
  repeat apply conj.
  - apply (proj1 (Hb eq_refl)). exists "http://b.test". split; [|reflexivity].
    change ("http://b.test" ∈ ["http://a.test"; "http://b.test"]).
    apply list_elem_of_further, list_elem_of_here.
  - apply (proj2 (Hc eq_refl)). vm_compute. discriminate.
  - apply Hdefault; reflexivity.
  - apply Hdefault; reflexivity.
Defined.

End MoreRuns.
